(** * Planning analyzer: hierarchy detection and validation rules

    A shallow embedding of [planning_parser.py] (class [PlanningParser]) and
    [validators.py] (class [PlanningValidator]).

    - A Python [str] is a list of Unicode code points.
    - A cell of a pandas frame is a value of [cell]: the three missing
      values ([None], [NaN], [NaT]), a string, an integer or a timestamp
      (nanoseconds since the epoch).  Numbers are integers: the data
      model counts durations in whole days.
    - A row handed out by [iterrows] is a pandas [Series]: a finite map
      from column names to cells.  A frame is its set of column names and
      its rows, in order, under the default [RangeIndex] (row [i] has
      label [i]), which is what [read_excel] and [pd.DataFrame(list)]
      build.  A frame has one column per name; a frame with two columns
      under one label is outside the model.
    - A raised exception ends the computation: [result] is the error
      monad, and a frame half-updated at the time of the raise is lost
      with the local variable that held it.
    - The Unicode character classes and the pandas routines that the
      code calls without defining them ([to_datetime], [to_numeric], the
      sort of [sort_values], the text of a timestamp, the days between
      two timestamps, which pandas counts in 64 bits and refuses on
      overflow) are the fields of the classes [Unicode] and [Pandas];
      the theorems hold for every instance, and the examples are
      evaluated on [ascii_db] and [plain_pandas].
    - The clock that [_check_future_progress] reads is an argument,
      [today].

    The model comes first, then the contracts that the theorems speak of,
    then the theorems. *)

From Stdlib Require Import ZArith NArith Lia DecimalString.
From stdpp Require Import gmap strings list fin_maps sorting.

Local Open Scope Z_scope.

(** ** Python strings *)

Module PyStr.

Abbreviation pystr := (list N).

(** Code points of a string literal of this file, which is UTF-8. *)
Fixpoint utf8_decode (need : nat) (acc : N) (bs : list N) : pystr :=
  match bs with
  | [] => []
  | b :: bs' =>
      if (b <? 128)%N then b :: utf8_decode 0 0%N bs'
      else if (b <? 192)%N then
        let acc' := (acc * 64 + (b - 128))%N in
        match need with
        | 0%nat => utf8_decode 0 0%N bs'
        | 1%nat => acc' :: utf8_decode 0 0%N bs'
        | S n => utf8_decode n acc' bs'
        end
      else if (b <? 224)%N then utf8_decode 1 (b - 192)%N bs'
      else if (b <? 240)%N then utf8_decode 2 (b - 224)%N bs'
      else utf8_decode 3 (b - 240)%N bs'
  end.

Fixpoint bytes_of (s : string) : list N :=
  match s with
  | EmptyString => []
  | String a s' => Ascii.N_of_ascii a :: bytes_of s'
  end.

Definition py (s : string) : pystr := utf8_decode 0 0%N (bytes_of s).
Arguments py : simpl never.

(** [str(n)] for an [int]. *)
Definition str_of_int (z : Z) : pystr :=
  py (NilZero.string_of_int (Z.to_int z)).
Arguments str_of_int : simpl never.

(** The character classes of the Unicode database that [str.isspace],
    [str.isupper] and [str.isdigit] consult. *)
Class Unicode := {
  isspace_c : N → bool;
  islower_c : N → bool;
  isupper_c : N → bool;
  istitle_c : N → bool;
  isdigit_c : N → bool
}.

(** The database restricted to ASCII; every other code point is taken
    as an uncased symbol. *)
Definition between (lo hi c : N) : bool := ((lo <=? c) && (c <=? hi))%N.

#[export] Instance ascii_db : Unicode := {|
  isspace_c c := between 9 13 c || between 28 32 c;
  islower_c c := between 97 122 c;
  isupper_c c := between 65 90 c;
  istitle_c _ := false;
  isdigit_c c := between 48 57 c
|}.

Section Methods.
Context `{Unicode}.

Fixpoint lstrip (s : pystr) : pystr :=
  match s with
  | [] => []
  | c :: s' => if isspace_c c then lstrip s' else s
  end.

Definition rstrip (s : pystr) : pystr := rev (lstrip (rev s)).

(** [s.strip()] *)
Definition strip (s : pystr) : pystr := rstrip (lstrip s).

(** [s.isupper()]: no lowercase or titlecase character, and at least
    one uppercase character. *)
Definition isupper (s : pystr) : bool :=
  forallb (λ c, negb (islower_c c || istitle_c c)) s && existsb isupper_c s.

(** [s[i]] *)
Definition index (s : pystr) (i : nat) : option N := s !! i.
End Methods.

(** [s.startswith(p)] *)
Fixpoint startswith (s p : pystr) {struct p} : bool :=
  match p, s with
  | [], _ => true
  | _ :: _, [] => false
  | a :: p', b :: s' => (a =? b)%N && startswith s' p'
  end.


(** [s.replace(old, '')] for a one-character [old]. *)
Definition remove_char (old : N) (s : pystr) : pystr :=
  filter (λ c, c ≠ old) s.

End PyStr.
Import PyStr.

(** ** Exceptions *)

Inductive exn : Type :=
  | IndexError
  | KeyError (key : string)
  | KeyErrors (keys : list string)
  | TypeError
  | AttributeError
  | OverflowError (msg : pystr)
  | OutOfBoundsDatetime (msg : pystr)
  | Exception (msg : pystr).

Inductive result (A : Type) : Type :=
  | Ok (a : A)
  | Raise (e : exn).
Arguments Ok {A} a.
Arguments Raise {A} e.

#[export] Instance result_ret : MRet result := λ A a, Ok a.
#[export] Instance result_bind : MBind result := λ A B f m,
  match m with Ok a => f a | Raise e => Raise e end.

Definition repr_str (k : string) : pystr := py "'" ++ py k ++ py "'".

Fixpoint join (sep : pystr) (l : list pystr) : pystr :=
  match l with
  | [] => []
  | [x] => x
  | x :: l' => x ++ sep ++ join sep l'
  end.

(** [str(e)].  [KeyErrors] is the [KeyError] that [dropna] raises, whose
    argument is the list of missing labels.  The text of a [TypeError] or
    an [AttributeError] names the operand types; only its head is kept,
    and the parser raises neither.  [OverflowError] and
    [OutOfBoundsDatetime] are what pandas raises when the difference of
    two timestamps does not fit in 64 bits. *)
Definition str_of_exn (e : exn) : pystr :=
  match e with
  | IndexError => py "string index out of range"
  | KeyError k => repr_str k
  | KeyErrors ks => py "[" ++ join (py ", ") (repr_str <$> ks) ++ py "]"
  | TypeError => py "unsupported operand type(s)"
  | AttributeError => py "object has no attribute"
  | OverflowError msg | OutOfBoundsDatetime msg => msg
  | Exception msg => msg
  end.

(** ** Cells, rows and frames *)

Inductive cell : Type :=
  | PyNone
  | NaN
  | NaT
  | Str (s : pystr)
  | Int (z : Z)
  | Timestamp (ns : Z).

#[export] Instance cell_eq_dec : EqDecision cell.
Proof. solve_decision. Defined.

(** [pd.isna(x)] and [pd.notna(x)] on a scalar. *)
Definition isna (c : cell) : bool :=
  match c with PyNone | NaN | NaT => true | _ => false end.
Definition notna (c : cell) : bool := negb (isna c).

Abbreviation Series := (gmap string cell).

Record DataFrame : Type := mkDF {
  columns : gset string;
  rows : list Series
}.

(** Every row of a frame carries exactly the frame's columns. *)
Definition wf (df : DataFrame) : Prop :=
  Forall (λ r : Series, dom r = columns df) (rows df).

(** [row.get(c)]: [None] when the column is absent. *)
Definition get (row : Series) (c : string) : cell := default PyNone (row !! c).

(** [row[c]] *)
Definition item (row : Series) (c : string) : result cell :=
  match row !! c with Some v => Ok v | None => Raise (KeyError c) end.

(** [df[c] = v] for a scalar [v]: the column is created or overwritten. *)
Definition assign (c : string) (v : cell) (df : DataFrame) : DataFrame :=
  mkDF ({[c]} ∪ columns df) (insert c v <$> rows df).

(** [df.iterrows()] *)
Definition iterrows (df : DataFrame) : list (nat * Series) :=
  imap (λ i r, (i, r)) (rows df).

(** [s <= t] on strings: by code points, a prefix first. *)
Fixpoint str_leb (s t : pystr) : bool :=
  match s, t with
  | [], _ => true
  | _ :: _, [] => false
  | a :: s', b :: t' =>
      if (a <? b)%N then true else if (b <? a)%N then false else str_leb s' t'
  end.

Definition kind (c : cell) : nat :=
  match c with
  | PyNone => 0 | NaN => 1 | NaT => 2 | Str _ => 3 | Int _ => 4 | Timestamp _ => 5
  end.

(** [a <= b] on cells of one kind; [sort_values] raises before it would
    compare cells of two kinds. *)
Definition cell_leb (a b : cell) : bool :=
  match a, b with
  | Timestamp x, Timestamp y => x <=? y
  | Int x, Int y => x <=? y
  | Str s, Str t => str_leb s t
  | _, _ => (kind a <=? kind b)%nat
  end.

Definition ns_per_day : Z := 86400000000000.

(** A difference of two timestamps is a count of nanoseconds in 64 bits:
    it fits when it lies strictly between [- int64_limit] and
    [int64_limit], which is a little over 292 years either way. *)
Definition int64_limit : Z := 9223372036854775808.

Definition fits (e s : Z) : Prop := - int64_limit < e - s < int64_limit.
Definition overflows (e s : Z) : Prop :=
  e - s < - int64_limit ∨ int64_limit ≤ e - s.

(** What the model takes from pandas as given: the text of a timestamp,
    the two coercions of [_clean_data] on a column (with
    [errors='coerce'], so that [to_datetime] yields a timestamp or [NaT],
    here [None]), the days between two timestamps, and the sort behind
    [sort_values], which is not stable: only that it returns its input,
    reordered and ascending, is known.

    [timestamp_days e s] is [(e - s).days] on two [Timestamp] scalars and
    [datetime_days e s] is [(end - start).dt.days] in a row where the two
    datetime columns hold [e] and [s].  pandas subtracts in 64 bits: a
    difference that fits gives its whole days, rounded down, and one that
    overflows raises.  Nothing is assumed of the one difference in
    between, [- int64_limit], which is the bit pattern of [NaT]. *)
Class Pandas := {
  timestamp_str : Z → pystr;
  timestamp_days : Z → Z → result cell;
  timestamp_days_fits : ∀ e s,
    fits e s → timestamp_days e s = Ok (Int ((e - s) / ns_per_day));
  timestamp_days_overflows : ∀ e s,
    overflows e s → ∃ x, timestamp_days e s = Raise x;
  datetime_days : Z → Z → result cell;
  datetime_days_fits : ∀ e s,
    fits e s → datetime_days e s = Ok (Int ((e - s) / ns_per_day));
  datetime_days_overflows : ∀ e s,
    overflows e s → ∃ x, datetime_days e s = Raise x;
  to_datetime : list cell → list (option Z);
  to_datetime_length : ∀ cs, length (to_datetime cs) = length cs;
  to_numeric : list cell → list cell;
  to_numeric_length : ∀ cs, length (to_numeric cs) = length cs;
  sort_cells : ∀ {A : Type}, (A → cell) → list A → list A;
  sort_cells_perm : ∀ A (k : A → cell) l, sort_cells k l ≡ₚ l;
  sort_cells_sorted : ∀ A (k : A → cell) l,
    Sorted (λ a b, cell_leb (k a) (k b) = true) (sort_cells k l)
}.

(** [str(x)], also what an f-string prints for [x]. *)
Definition py_str `{Pandas} (c : cell) : pystr :=
  match c with
  | PyNone => py "None"
  | NaN => py "nan"
  | NaT => py "NaT"
  | Str s => s
  | Int z => str_of_int z
  | Timestamp ns => timestamp_str ns
  end.

(** ** [PlanningParser._detect_structure] *)

Section Parser.
Context `{Unicode} `{Pandas}.

Definition tache : cell := Str (py "tache").
Definition bloc : cell := Str (py "bloc").
Definition phase : cell := Str (py "phase").

(** The body of the [for idx, row in df_result.iterrows()] loop: the row
    as the [.at] assignments leave it, and the new [current_bloc] and
    [current_phase]. *)
Definition classify (current_bloc current_phase : cell) (row : Series)
  : result (Series * (cell * cell)) :=
  match row !! "task" with
  | Some t =>
      if notna t then
        let task_str := strip (py_str t) in
        if isupper task_str && isna (get row "start") then
          Ok (<["bloc" := Str task_str]> (<["level" := bloc]> row),
              (Str task_str, PyNone))
        else
          match index task_str 0 with
          | None => Raise IndexError
          | Some c0 =>
              if (isdigit_c c0 || startswith task_str (py "-"))
                 && isna (get row "start") then
                Ok (<["bloc" := current_bloc]>
                      (<["phase" := Str task_str]> (<["level" := phase]> row)),
                    (current_bloc, Str task_str))
              else
                Ok (<["phase" := current_phase]>
                      (<["bloc" := current_bloc]> (<["level" := tache]> row)),
                    (current_bloc, current_phase))
          end
      else Ok (row, (current_bloc, current_phase))
  | None => Ok (row, (current_bloc, current_phase))
  end.

Fixpoint detect_loop (current_bloc current_phase : cell) (rs : list Series)
  : result (list Series) :=
  match rs with
  | [] => Ok []
  | row :: rest =>
      '(row', (b, p)) ← classify current_bloc current_phase row;
      rest' ← detect_loop b p rest;
      Ok (row' :: rest')
  end.

(** The three columns as initialised before the loop. *)
Definition init_structure (df : DataFrame) : DataFrame :=
  assign "phase" PyNone (assign "bloc" PyNone (assign "level" tache df)).

Definition _detect_structure (df : DataFrame) : result DataFrame :=
  let df_result := init_structure df in
  rows' ← detect_loop PyNone PyNone (rows df_result);
  Ok (mkDF (columns df_result) rows').

End Parser.

(** ** [PlanningParser._clean_data] and [PlanningParser.parse_excel] *)

Section Cleaning.
Context `{Unicode} `{Pandas}.

(** The cells of [df[c]], top to bottom, for a column of the frame. *)
Definition column (c : string) (df : DataFrame) : list cell :=
  (λ r, get r c) <$> rows df.

(** [df[c] = values], one value per row. *)
Definition set_column (c : string) (vs : list cell) (df : DataFrame)
  : DataFrame :=
  mkDF ({[c]} ∪ columns df) (zip_with (λ r v, <[c := v]> r) (rows df) vs).

(** [(end - start).dt.days] on two datetime columns, for one row: the
    days between the two timestamps, or an overflow; [NaN] next to a
    [NaT]. *)
Definition dt_days (start_ end_ : cell) : result cell :=
  match start_, end_ with
  | Timestamp s, Timestamp e => datetime_days e s
  | _, _ => Ok NaN
  end.

Definition coerce_date (c : string) (df : DataFrame) : DataFrame :=
  if decide (c ∈ columns df) then
    set_column c (from_option Timestamp NaT <$> to_datetime (column c df)) df
  else df.

(** [df.loc[mask, 'duration'] = ...] with [mask = df['duration'].isna()],
    for one row: the difference is taken in the rows of the mask only. *)
Definition backfill_duration (r : Series) : result Series :=
  if isna (get r "duration") then
    days ← dt_days (get r "start") (get r "end");
    Ok (<["duration" := days]> r)
  else Ok r.

(** An operation on a column that raises when it raises in some row. *)
Fixpoint map_rows (f : Series → result Series) (l : list Series)
  : result (list Series) :=
  match l with
  | [] => Ok []
  | r :: l' =>
      r' ← f r;
      rest ← map_rows f l';
      Ok (r' :: rest)
  end.

(** [df.rename(columns={old: new})] on a frame that has no column called
    [new] yet.  On a frame that has one, pandas keeps both columns under
    the one label; a frame of this model holds one cell per label, and
    keeps the renamed column there.  Every statement below about a
    renamed column is about frames without a column of the new name. *)
Definition rename (old new : string) (df : DataFrame) : DataFrame :=
  if decide (old ∈ columns df) then
    mkDF ({[new]} ∪ columns df ∖ {[old]})
         ((λ r : Series, <[new := get r old]> (delete old r)) <$> rows df)
  else df.

Definition _clean_data (df : DataFrame) : result DataFrame :=
  let df_clean := coerce_date "end" (coerce_date "start" df) in
  df_clean ←
    (if decide ("start" ∈ columns df_clean ∧ "end" ∈ columns df_clean) then
       if decide ("duration" ∈ columns df_clean) then
         filled ← map_rows backfill_duration (rows df_clean);
         Ok (mkDF (columns df_clean) filled)
       else Raise (KeyError "duration")
     else Ok df_clean);
  let df_clean :=
    if decide ("progress" ∈ columns df_clean) then
      set_column "progress"
        (to_numeric ((λ c, Str (remove_char 37 (py_str c)))
                       <$> column "progress" df_clean)) df_clean
    else df_clean in
  let df_clean :=
    if decide ("value" ∈ columns df_clean) then
      set_column "value" (to_numeric (column "value" df_clean)) df_clean
    else df_clean in
  Ok (rename "end" "end_date"
        (rename "start" "start_date" (rename "task" "task_name" df_clean))).

(** [parse_excel] from the frame that [_map_columns] returns: reading the
    workbook and mapping its headers come before and are not modelled.
    Whatever is raised is caught and raised again as a plain
    [Exception]. *)
Definition parse_excel (df_mapped : DataFrame) : result DataFrame :=
  match df_structured ← _detect_structure df_mapped;
        _clean_data df_structured with
  | Ok df_clean => Ok df_clean
  | Raise e => Raise (Exception (py "Erreur parsing: " ++ str_of_exn e))
  end.

End Cleaning.

(** ** [PlanningValidator] *)

Record Alert : Type := mkAlert {
  severity : pystr;
  message : pystr;
  row : option nat
}.

#[export] Instance Alert_eq_dec : EqDecision Alert.
Proof. solve_decision. Defined.

Section Validator.
Context `{Pandas}.

(** A [for] loop that appends to [alerts]; a raise inside it ends the
    rule, and the alerts gathered so far go with it. *)
Fixpoint for_each {A : Type} (body : A → result (list Alert)) (l : list A)
  : result (list Alert) :=
  match l with
  | [] => Ok []
  | x :: l' =>
      found ← body x;
      rest ← for_each body l';
      Ok (found ++ rest)
  end.

(** [df[df['level'] == 'tache']]: the task rows with their labels. *)
Definition tasks_of (df : DataFrame) : result (list (nat * Series)) :=
  if decide ("level" ∈ columns df) then
    Ok (filter (λ ir : nat * Series, get ir.2 "level" = tache) (iterrows df))
  else Raise (KeyError "level").

(** [tasks.dropna(subset=...)] on rows of a frame with columns [cols]. *)
Definition dropna (subset : list string) (cols : gset string)
  (tasks : list (nat * Series)) : result (list (nat * Series)) :=
  match filter (λ c, c ∉ cols) subset with
  | [] =>
      Ok (filter (λ ir : nat * Series,
                    forallb (λ c, notna (get ir.2 c)) subset = true) tasks)
  | missing => Raise (KeyErrors missing)
  end.

(** Operators on cells.  They are applied to cells that [dropna] has
    kept, so no missing value reaches them; two strings, two integers or
    two timestamps compare, anything else is a [TypeError]. *)
Definition comparable (a b : cell) : bool :=
  match a, b with
  | Str _, Str _ | Int _, Int _ | Timestamp _, Timestamp _ => true
  | _, _ => false
  end.

(** [a > b] *)
Definition py_gt (a b : cell) : result bool :=
  if comparable a b then Ok (negb (cell_leb a b)) else Raise TypeError.

(** [a >= b] *)
Definition py_ge (a b : cell) : result bool :=
  if comparable a b then Ok (cell_leb b a) else Raise TypeError.

(** [a < b] *)
Definition py_lt (a b : cell) : result bool :=
  if comparable a b then Ok (negb (cell_leb b a)) else Raise TypeError.

(** [(end_ - start_).days]: an [int], or [nan] where the difference
    is [NaT] *)
Definition days_between (end_ start_ : cell) : result cell :=
  match end_, start_ with
  | Timestamp e, Timestamp s => timestamp_days e s
  | Int _, Int _ => Raise AttributeError
  | _, _ => Raise TypeError
  end.

(** [abs(calc - stated) > 1]; a comparison with [nan] is false *)
Definition off_by_more_than_one (calc stated : cell) : result bool :=
  match calc, stated with
  | Int c, Int d => Ok (bool_decide (Z.abs (c - d) > 1))
  | NaN, Int _ => Ok false
  | _, _ => Raise TypeError
  end.

(** [row.get('task_name', 'N/A')] inside an f-string *)
Definition name_or_NA (r : Series) : pystr :=
  match r !! "task_name" with Some v => py_str v | None => py "N/A" end.

(** [row.get('task_name')] inside an f-string *)
Definition name_of (r : Series) : pystr := py_str (get r "task_name").

Definition _check_missing_dates (df : DataFrame) : result (list Alert) :=
  tasks ← tasks_of df;
  for_each (λ '(idx, r),
    Ok ((if isna (get r "start_date") then
           [mkAlert (py "error")
              (py "Date début manquante: " ++ name_or_NA r) (Some idx)]
         else []) ++
        (if isna (get r "end_date") then
           [mkAlert (py "error")
              (py "Date fin manquante: " ++ name_or_NA r) (Some idx)]
         else []))) tasks.

Definition duration_message (r : Series) (calc stated : cell) : pystr :=
  py "Incohérence durée: " ++ name_of r ++ py " (calculé: " ++
  py_str calc ++ py "j, indiqué: " ++ py_str stated ++ py "j)".

Definition _check_duration_coherence (df : DataFrame) : result (list Alert) :=
  tasks ← tasks_of df;
  tasks ← dropna ["start_date"; "end_date"; "duration"] (columns df) tasks;
  for_each (λ '(idx, r),
    end_date ← item r "end_date";
    start_date ← item r "start_date";
    calc_duration ← days_between end_date start_date;
    stated_duration ← item r "duration";
    fires ← off_by_more_than_one calc_duration stated_duration;
    if fires : bool then
      Ok [mkAlert (py "warning")
            (duration_message r calc_duration stated_duration) (Some idx)]
    else Ok []) tasks.

Definition _check_progress_range (df : DataFrame) : result (list Alert) :=
  tasks ← tasks_of df;
  tasks ← dropna ["progress"] (columns df) tasks;
  for_each (λ '(idx, r),
    progress ← item r "progress";
    below ← py_lt progress (Int 0);
    out_of_range ←
      (if below : bool then Ok true else py_gt progress (Int 100));
    if out_of_range : bool then
      Ok [mkAlert (py "error")
            (py "Avancement invalide (" ++ py_str progress ++ py "%): " ++
             name_of r) (Some idx)]
    else Ok []) tasks.

Definition _check_date_order (df : DataFrame) : result (list Alert) :=
  tasks ← tasks_of df;
  tasks ← dropna ["start_date"; "end_date"] (columns df) tasks;
  for_each (λ '(idx, r),
    start_date ← item r "start_date";
    end_date ← item r "end_date";
    late ← py_ge start_date end_date;
    if late : bool then
      Ok [mkAlert (py "error")
            (py "Date fin avant date début: " ++ name_of r) (Some idx)]
    else Ok []) tasks.

Definition _check_orphan_tasks (df : DataFrame) : result (list Alert) :=
  tasks ← tasks_of df;
  for_each (λ '(idx, r),
    Ok ((if isna (get r "bloc") then
           [mkAlert (py "warning")
              (py "Tâche sans BLOC: " ++ name_of r) (Some idx)]
         else []) ++
        (if isna (get r "phase") then
           [mkAlert (py "info")
              (py "Tâche sans Phase: " ++ name_of r) (Some idx)]
         else []))) tasks.

(** [series.unique()]: the distinct cells, by first appearance. *)
Fixpoint unique (l : list cell) : list cell :=
  match l with
  | [] => []
  | x :: l' => x :: filter (λ y, y ≠ x) (unique l')
  end.

(** [tasks.sort_values(c)] on rows that [dropna] has kept: cells of two
    kinds in the column do not compare. *)
Definition one_kind (cs : list cell) : bool :=
  match cs with
  | [] => true
  | c0 :: cs' => forallb (λ c, (kind c =? kind c0)%nat) cs'
  end.

Definition sort_values (c : string) (tasks : list (nat * Series))
  : result (list (nat * Series)) :=
  if one_kind ((λ ir : nat * Series, get ir.2 c) <$> tasks) then
    Ok (sort_cells (λ ir : nat * Series, get ir.2 c) tasks)
  else Raise TypeError.

(** The body of the inner loop of the overlap rule, for
    [current = phase_tasks.iloc[i]] and
    [next_task = phase_tasks.iloc[i + 1]]. *)
Definition overlap_alert (current next_task : nat * Series)
  : result (list Alert) :=
  end_date ← item current.2 "end_date";
  start_date ← item next_task.2 "start_date";
  overlaps ← py_gt end_date start_date;
  if overlaps : bool then
    name ← item current.2 "task_name";
    next_name ← item next_task.2 "task_name";
    Ok [mkAlert (py "info")
          (py "Chevauchement: " ++ py_str name ++ py " et " ++
           py_str next_name) (Some current.1)]
  else Ok [].

Definition _check_overlapping_tasks (df : DataFrame) : result (list Alert) :=
  tasks ← tasks_of df;
  tasks ← dropna ["phase"; "start_date"; "end_date"] (columns df) tasks;
  for_each (λ phase_,
    phase_tasks ←
      sort_values "start_date"
        (filter (λ ir : nat * Series, get ir.2 "phase" = phase_) tasks);
    for_each (λ i,
      match phase_tasks !! i, phase_tasks !! (i + 1)%nat with
      | Some current, Some next_task => overlap_alert current next_task
      | _, _ => Raise IndexError
      end) (seq 0 (length phase_tasks - 1)))
    (unique ((λ ir : nat * Series, get ir.2 "phase") <$> tasks)).

Definition _check_missing_values (df : DataFrame) : result (list Alert) :=
  tasks ← tasks_of df;
  if decide ("value" ∈ columns df) then
    let missing_count :=
      length (filter (λ ir : nat * Series, isna (get ir.2 "value") = true)
                tasks) in
    if (0 <? missing_count)%nat then
      Ok [mkAlert (py "info")
            (str_of_int (Z.of_nat missing_count) ++
             py " tâches sans valeur financière") None]
    else Ok []
  else Raise (KeyError "value").

(** [today] is [pd.Timestamp(datetime.now().date())], midnight of the day
    on which the rule runs: the rule reads the clock, and the model takes
    what it reads as an argument. *)
Definition _check_future_progress (today : Z) (df : DataFrame)
  : result (list Alert) :=
  tasks ← tasks_of df;
  tasks ← dropna ["start_date"; "progress"] (columns df) tasks;
  for_each (λ '(idx, r),
    start_date ← item r "start_date";
    future ← py_gt start_date (Timestamp today);
    fires ←
      (if future : bool then
         progress ← item r "progress"; py_gt progress (Int 0)
       else Ok false);
    if fires : bool then
      progress ← item r "progress";
      Ok [mkAlert (py "warning")
            (py "Tâche future avec avancement: " ++ name_of r ++ py " (" ++
             py_str progress ++ py "%)") (Some idx)]
    else Ok []) tasks.

(** [self.rules], in the order of [__init__]. *)
Definition rules (today : Z) : list (DataFrame → result (list Alert)) :=
  [ _check_missing_dates;
    _check_duration_coherence;
    _check_progress_range;
    _check_date_order;
    _check_orphan_tasks;
    _check_overlapping_tasks;
    _check_missing_values;
    _check_future_progress today ].

Definition validate (today : Z) (df : DataFrame) : result (list Alert) :=
  for_each (λ rule, rule df) (rules today).

End Validator.

(** [get_summary]: the summary is a [dict] from severity to count. *)
Definition get_summary (alerts : list Alert) : gmap pystr nat :=
  foldl (λ summary alert,
           <[severity alert :=
               (default 0 (summary !! severity alert) + 1)%nat]> summary)
        {[ py "error" := 0%nat; py "warning" := 0%nat; py "info" := 0%nat;
           py "total" := length alerts ]}
        alerts.

(** * The contracts

    What the claims speak of, read off the frames that the code takes and
    returns. *)

Section Contract.
Context `{Unicode} `{Pandas}.

(** A row as the three column assignments before the loop leave it. *)
Definition init_row (r : Series) : Series :=
  <["phase" := PyNone]> (<["bloc" := PyNone]> (<["level" := tache]> r)).

(** Case analysis of one loop iteration: the four ways out of
    [classify] that do not raise. *)
Inductive classified (b p : cell) (row : Series)
  : Series → cell → cell → Prop :=
  | is_bloc t :
      row !! "task" = Some t → notna t = true →
      isupper (strip (py_str t)) = true → isna (get row "start") = true →
      classified b p row
        (<["bloc" := Str (strip (py_str t))]> (<["level" := bloc]> row))
        (Str (strip (py_str t))) PyNone
  | is_phase t :
      row !! "task" = Some t → notna t = true →
      classified b p row
        (<["bloc" := b]>
           (<["phase" := Str (strip (py_str t))]> (<["level" := phase]> row)))
        b (Str (strip (py_str t)))
  | is_tache t :
      row !! "task" = Some t → notna t = true →
      classified b p row
        (<["phase" := p]> (<["bloc" := b]> (<["level" := tache]> row))) b p
  | is_untouched :
      (∀ t, row !! "task" = Some t → notna t = false) →
      classified b p row row b p.

(** The label of a header row: its text as the detector reads it. *)
Definition label (r : Series) : cell := Str (strip (py_str (get r "task"))).

(** The text field of the row is present (not null). *)
Definition has_text (r : Series) : bool :=
  match r !! "task" with Some t => notna t | None => false end.

(** Over the rows that precede a row, nearest first: the label of the
    nearest row of level [bloc], and the label of the nearest row of
    level [phase] unless a row of level [bloc] comes first; [None] where
    there is no such row. *)
Fixpoint nearest_bloc (before : list Series) : cell :=
  match before with
  | [] => PyNone
  | r :: before' =>
      if decide (r !! "level" = Some bloc) then label r
      else nearest_bloc before'
  end.

Fixpoint nearest_phase (before : list Series) : cell :=
  match before with
  | [] => PyNone
  | r :: before' =>
      if decide (r !! "level" = Some bloc) then PyNone
      else if decide (r !! "level" = Some phase) then label r
      else nearest_phase before'
  end.

(** The rows before position [i], nearest first. *)
Definition preceding (i : nat) (out : DataFrame) : list Series :=
  reverse (take i (rows out)).


(** A row as the three column assignments leave it, before the loop. *)
Definition fresh (r : Series) : Prop :=
  r !! "level" = Some tache ∧ r !! "bloc" = Some PyNone ∧
  r !! "phase" = Some PyNone.

(** What the loop writes in a row, given the rows before it. *)
Inductive written (before : list Series) (r : Series) : Prop :=
  | written_bloc :
      r !! "level" = Some bloc → has_text r = true →
      r !! "bloc" = Some (label r) → r !! "phase" = Some PyNone →
      written before r
  | written_phase :
      r !! "level" = Some phase → has_text r = true →
      r !! "bloc" = Some (nearest_bloc before) →
      r !! "phase" = Some (label r) →
      written before r
  | written_tache :
      r !! "level" = Some tache → has_text r = true →
      r !! "bloc" = Some (nearest_bloc before) →
      r !! "phase" = Some (nearest_phase before) →
      written before r
  | written_default :
      r !! "level" = Some tache → has_text r = false →
      r !! "bloc" = Some PyNone → r !! "phase" = Some PyNone →
      written before r.

(** The claim of C1 and C3 about one row of the output: its [bloc] and
    [phase] fields name the nearest preceding headers. *)
Definition task_context (out : DataFrame) (i : nat) (r : Series) : Prop :=
  r !! "bloc" = Some (nearest_bloc (preceding i out)) ∧
  r !! "phase" = Some (nearest_phase (preceding i out)).

(** What the normaliser leaves in a task row: the two dates are
    timestamps or missing, the duration an integer or missing. *)
Definition date_or_na (c : cell) : bool :=
  match c with Timestamp _ => true | _ => isna c end.

Definition int_or_na (c : cell) : bool :=
  match c with Int _ => true | _ => isna c end.

Definition normalized_task (r : Series) : bool :=
  match r !! "start_date", r !! "end_date", r !! "duration" with
  | Some s, Some e, Some d => date_or_na s && date_or_na e && int_or_na d
  | _, _, _ => false
  end.

(** The two dates of the row, when it has both, are less than 2^63
    nanoseconds apart: their difference can be taken. *)
Definition span_fits (r : Series) : Prop :=
  ∀ s e, r !! "start_date" = Some (Timestamp s) →
         r !! "end_date" = Some (Timestamp e) → fits e s.

(** The duration rule in the words of its contract: for a task row with
    the two dates and the duration present, one warning when the days
    from start to end differ from the stated days by more than one. *)
Definition duration_finding (ir : nat * Series) : list Alert :=
  match get ir.2 "start_date", get ir.2 "end_date", get ir.2 "duration" with
  | Timestamp s, Timestamp e, Int d =>
      if decide (Z.abs ((e - s) / ns_per_day - d) > 1) then
        [mkAlert (py "warning")
           (duration_message ir.2 (Int ((e - s) / ns_per_day)) (Int d))
           (Some ir.1)]
      else []
  | _, _, _ => []
  end.

(** Two days are on the same side of a start date. *)
Definition same_side (today today' : Z) (r : Series) : Prop :=
  ∀ s, r !! "start_date" = Some (Timestamp s) → today < s ↔ today' < s.

(** The pairs of neighbours of a list, in order. *)
Fixpoint adjacent_pairs {A : Type} (l : list A) : list (A * A) :=
  match l with
  | [] => []
  | a :: l' =>
      match l' with
      | [] => []
      | b :: _ => (a, b) :: adjacent_pairs l'
      end
  end.

(** The start dates along a list of rows never go down. *)
Definition ascending_starts (l : list (nat * Series)) : Prop :=
  Sorted (λ a b : nat * Series,
            cell_leb (get a.2 "start_date") (get b.2 "start_date") = true) l.

(** The task rows with phase and both dates present. *)
Definition phased_tasks (df : DataFrame) : list (nat * Series) :=
  filter (λ ir : nat * Series,
            get ir.2 "level" = tache ∧ notna (get ir.2 "phase") = true ∧
            notna (get ir.2 "start_date") = true ∧
            notna (get ir.2 "end_date") = true) (iterrows df).

(** What the overlap test finds along a group: what it gives for each
    pair of neighbours, pair after pair. *)
Definition pair_findings (group : list (nat * Series))
  (found : list Alert) : Prop :=
  ∃ per_pair : list (list Alert),
    Forall2 (λ (pair : (nat * Series) * (nat * Series)) f,
               overlap_alert pair.1 pair.2 = Ok f)
      (adjacent_pairs group) per_pair ∧
    found = concat per_pair.

(** The overlap rule in the words of its contract.  [alerts] is what the
    rule finds on [df] when the task rows with phase and both dates
    present are grouped by phase, one group for each phase that occurs;
    each group is a rearrangement of the rows of its phase in ascending
    order of start date (one of them, when start dates are equal); and
    the overlap test is run on each pair of neighbours of each group,
    group after group. *)
Definition overlapping_neighbours (df : DataFrame) (alerts : list Alert)
  : Prop :=
  ∃ (phases : list cell) (groups : list (list (nat * Series)))
    (per_group : list (list Alert)),
    NoDup phases ∧
    (∀ p, p ∈ phases
          ↔ ∃ ir, ir ∈ phased_tasks df ∧ get ir.2 "phase" = p) ∧
    Forall2 (λ phase_ group,
               group ≡ₚ filter (λ ir : nat * Series,
                                  get ir.2 "phase" = phase_)
                          (phased_tasks df) ∧
               ascending_starts group)
      phases groups ∧
    Forall2 pair_findings groups per_group ∧
    alerts = concat per_group.

(** The text of the row is present and blank once stripped. *)
Definition blank_text (r : Series) : bool :=
  match r !! "task" with
  | Some t => notna t && bool_decide (strip (py_str t) = [])
  | None => false
  end.

(** The level that the priority rules give a row, read from its text
    and its start cell alone. *)
Definition level_of (r : Series) : cell :=
  match r !! "task" with
  | Some t =>
      if notna t then
        let task_str := strip (py_str t) in
        if isupper task_str && isna (get r "start") then bloc
        else if (from_option isdigit_c false (index task_str 0)
                 || startswith task_str (py "-"))
                && isna (get r "start") then phase
        else tache
      else tache
  | None => tache
  end.

(** [df.head(n)] *)
Definition head (n : nat) (df : DataFrame) : DataFrame :=
  mkDF (columns df) (take n (rows df)).

(** The two rows hold the same cells away from level, bloc and phase. *)
Definition same_outside_hierarchy (r r' : Series) : Prop :=
  ∀ c, c ≠ "level" → c ≠ "bloc" → c ≠ "phase" → r' !! c = r !! c.

(** The steps of [_clean_data] after the date coercions, one by one. *)
Definition backfill_durations (df : DataFrame) : result DataFrame :=
  filled ← map_rows backfill_duration (rows df);
  Ok (mkDF (columns df) filled).

Definition numeric_progress (df : DataFrame) : DataFrame :=
  if decide ("progress" ∈ columns df) then
    set_column "progress"
      (to_numeric ((λ c, Str (remove_char 37 (py_str c)))
                     <$> column "progress" df)) df
  else df.

Definition numeric_value (df : DataFrame) : DataFrame :=
  if decide ("value" ∈ columns df) then
    set_column "value" (to_numeric (column "value" df)) df
  else df.

Definition final_names (df : DataFrame) : DataFrame :=
  rename "end" "end_date"
    (rename "start" "start_date" (rename "task" "task_name" df)).

(** The mapped frame has both date columns and no duration column. *)
Definition lacks_duration (df : DataFrame) : Prop :=
  "start" ∈ columns df ∧ "end" ∈ columns df ∧ "duration" ∉ columns df.

(** The rows in which [_clean_data] takes the difference of the two
    dates: when the frame has both date columns, the rows with a null
    duration, with their dates as [to_datetime] returned them. *)
Definition to_backfill (df : DataFrame) : list Series :=
  if decide ("start" ∈ columns df ∧ "end" ∈ columns df) then
    filter (λ r : Series, isna (get r "duration") = true)
      (rows (coerce_date "end" (coerce_date "start" df)))
  else [].

(** In every such row the difference fits; in some such row it
    overflows. *)
Definition backfill_fits (df : DataFrame) : Prop :=
  Forall (λ r : Series,
            ∀ s e, r !! "start" = Some (Timestamp s) →
                   r !! "end" = Some (Timestamp e) → fits e s)
    (to_backfill df).

Definition backfill_overflows (df : DataFrame) : Prop :=
  Exists (λ r : Series,
            ∃ s e, r !! "start" = Some (Timestamp s) ∧
                   r !! "end" = Some (Timestamp e) ∧ overflows e s)
    (to_backfill df).

(** The two rows hold the same cells under start, end and duration:
    what the back-fill reads. *)
Definition same_dates (r r' : Series) : Prop :=
  r' !! "start" = r !! "start" ∧ r' !! "end" = r !! "end" ∧
  r' !! "duration" = r !! "duration".

(** The two rows hold the same cell under [k]. *)
Definition same_at (k : string) (r r' : Series) : Prop := r' !! k = r !! k.

(** [df.rename(columns={old: new})] on one row, when the frame has the
    column [old] and when it has not. *)
Definition renamed (present : bool) (old new : string) (r : Series) : Series :=
  if present then <[new := get r old]> (delete old r) else r.

(** The columns that [_clean_data] writes or renames. *)
Definition normalised_columns : list string :=
  ["task"; "start"; "end"; "duration"; "progress"; "value";
   "task_name"; "start_date"; "end_date"].

(** The rows after the two date coercions and, when the frame has both
    date columns, the back-fill. *)
Definition row_dated (df : DataFrame) (r r3 : Series) : Prop :=
  ∃ r1 r2 : Series,
    (if decide ("start" ∈ columns df) then
       ∃ v, date_or_na v = true ∧ r1 = <["start" := v]> r
     else r1 = r) ∧
    (if decide ("end" ∈ columns df) then
       ∃ v, date_or_na v = true ∧ r2 = <["end" := v]> r1
     else r2 = r1) ∧
    (if decide ("start" ∈ columns df ∧ "end" ∈ columns df) then
       backfill_duration r2 = Ok r3
     else r3 = r2).

(** What [_clean_data] makes of one row of a frame: the two dates
    coerced where the frame has the column, the duration back-filled when
    the frame has both dates, progress and value replaced by whatever
    [to_numeric] returns, and the three columns renamed. *)
Definition row_cleaned (df : DataFrame) (r r' : Series) : Prop :=
  ∃ r1 r2 r3 r4 : Series,
    (if decide ("start" ∈ columns df) then
       ∃ v, date_or_na v = true ∧ r1 = <["start" := v]> r
     else r1 = r) ∧
    (if decide ("end" ∈ columns df) then
       ∃ v, date_or_na v = true ∧ r2 = <["end" := v]> r1
     else r2 = r1) ∧
    (if decide ("start" ∈ columns df ∧ "end" ∈ columns df) then
       backfill_duration r2 = Ok r3
     else r3 = r2) ∧
    (∀ k, k ≠ "progress" → k ≠ "value" → r4 !! k = r3 !! k) ∧
    r' = renamed (bool_decide ("end" ∈ columns df)) "end" "end_date"
           (renamed (bool_decide ("start" ∈ columns df)) "start" "start_date"
              (renamed (bool_decide ("task" ∈ columns df)) "task" "task_name"
                 r4)).

(** An alert as the rules build them: its severity is one of the three
    that the summary starts from, and its row label, when it has one, is
    the label of a task row of the frame. *)
Definition known_severity (a : Alert) : Prop :=
  severity a = py "error" ∨ severity a = py "warning" ∨
  severity a = py "info".

Definition points_at_task (df : DataFrame) (a : Alert) : Prop :=
  ∀ i, row a = Some i →
       ∃ r, rows df !! i = Some r ∧ get r "level" = tache.

(** The columns that some rule reads with [df[c]] or names in a
    [dropna(subset=...)]; the other columns are read with [row.get]. *)
Definition required_columns : list string :=
  ["level"; "start_date"; "end_date"; "duration"; "progress"; "phase";
   "value"].

(** A task row that every rule can read: normalised dates and duration,
    the two dates close enough for their difference to be taken, a
    progress that is an integer or missing, and a name. *)
Definition readable_task (r : Series) : Prop :=
  normalized_task r = true ∧ span_fits r ∧
  int_or_na (get r "progress") = true ∧ is_Some (r !! "task_name").

(** The progress rule in the words of its contract: for a task row whose
    progress is a number, one error when it is below 0 or above 100. *)
Definition progress_message (r : Series) (progress : cell) : pystr :=
  py "Avancement invalide (" ++ py_str progress ++ py "%): " ++ name_of r.

Definition progress_finding (ir : nat * Series) : list Alert :=
  match get ir.2 "progress" with
  | Int p =>
      if decide (p < 0 ∨ p > 100) then
        [mkAlert (py "error") (progress_message ir.2 (Int p)) (Some ir.1)]
      else []
  | _ => []
  end.

(** The date-order rule in the words of its contract: for a task row
    with both dates, one error when the start is not before the end. *)
Definition date_order_finding (ir : nat * Series) : list Alert :=
  match get ir.2 "start_date", get ir.2 "end_date" with
  | Timestamp s, Timestamp e =>
      if decide (e ≤ s) then
        [mkAlert (py "error")
           (py "Date fin avant date début: " ++ name_of ir.2) (Some ir.1)]
      else []
  | _, _ => []
  end.

End Contract.

(** The alerts of one severity. *)
Definition count (s : pystr) (alerts : list Alert) : nat :=
  length (filter (λ a, severity a = s) alerts).

(** ** An instance of [Pandas] for the examples

    Timestamps print as pandas prints them, integers and timestamps
    coerce to themselves, a string coerces to a number when it is a
    decimal integer and to no date at all, and the sort is a merge
    sort. *)

Definition ns_per_second : Z := 1000000000.

(** [z] in decimal on at least [width] digits, for [0 <= z]. *)
Definition zero_padded (width : nat) (z : Z) : pystr :=
  let digits := str_of_int z in
  replicate (width - length digits) 48%N ++ digits.

(** The civil date of a day counted from 1970-01-01. *)
Definition civil_from_days (days : Z) : Z * Z * Z :=
  let z := days + 719468 in
  let era := z / 146097 in
  let doe := z - era * 146097 in
  let yoe := (doe - doe / 1460 + doe / 36524 - doe / 146096) / 365 in
  let doy := doe - (365 * yoe + yoe / 4 - yoe / 100) in
  let mp := (5 * doy + 2) / 153 in
  let d := doy - (153 * mp + 2) / 5 + 1 in
  let m := if mp <? 10 then mp + 3 else mp - 9 in
  let y := yoe + era * 400 + (if m <=? 2 then 1 else 0) in
  (y, m, d).

(** [str(pd.Timestamp(ns))] *)
Definition iso_timestamp (ns : Z) : pystr :=
  let '(y, m, d) := civil_from_days (ns / ns_per_day) in
  let in_day := ns mod ns_per_day in
  let seconds := in_day / ns_per_second in
  let fraction := in_day mod ns_per_second in
  zero_padded 4 y ++ py "-" ++ zero_padded 2 m ++ py "-" ++
  zero_padded 2 d ++ py " " ++
  zero_padded 2 (seconds / 3600) ++ py ":" ++
  zero_padded 2 (seconds mod 3600 / 60) ++ py ":" ++
  zero_padded 2 (seconds mod 60) ++
  (if fraction =? 0 then []
   else if fraction mod 1000 =? 0 then
     py "." ++ zero_padded 6 (fraction / 1000)
   else py "." ++ zero_padded 9 fraction).

(** The integer that a string of decimal digits, with or without a
    minus sign, denotes. *)
Definition digits_value (s : pystr) : option Z :=
  match s with
  | [] => None
  | _ =>
      if forallb (between 48 57) s then
        Some (foldl (λ acc c, 10 * acc + (Z.of_N c - 48)) 0 s)
      else None
  end.

Definition int_of_str (s : pystr) : option Z :=
  match s with
  | 45%N :: s' => Z.opp <$> digits_value s'
  | _ => digits_value s
  end.

#[export] Instance cell_key_total {A} (k : A → cell) :
  Total (λ a b, cell_leb (k a) (k b) = true).
Proof.
  intros a b. destruct (k a) as [| | |s|x|x], (k b) as [| | |t|y|y]; simpl;
    try (left; reflexivity); try (right; reflexivity).
  - revert t. induction s as [|c s IH]; intros [|d t]; simpl; auto.
    destruct (N.ltb_spec c d), (N.ltb_spec d c); auto; lia.
  - rewrite !Z.leb_le. lia.
  - rewrite !Z.leb_le. lia.
Qed.

#[export] Instance cell_key_dec {A} (k : A → cell) :
  RelDecision (λ a b, cell_leb (k a) (k b) = true).
Proof. intros a b. apply _. Defined.

(** The days between two timestamps, with the 64-bit check. *)
Definition checked_days (raised : exn) (e s : Z) : result cell :=
  if decide (fits e s) then Ok (Int ((e - s) / ns_per_day))
  else Raise raised.

#[export] Instance plain_pandas : Pandas.
Proof.
  refine {|
    timestamp_str := iso_timestamp;
    timestamp_days :=
      checked_days
        (OutOfBoundsDatetime
           (py "Result is too large for pandas.Timedelta"));
    datetime_days :=
      checked_days (OverflowError (py "Overflow in int64 addition"));
    to_datetime cs :=
      (λ c, match c with Timestamp ns | Int ns => Some ns | _ => None end)
        <$> cs;
    to_datetime_length cs := length_fmap _ cs;
    to_numeric cs :=
      (λ c, match c with
            | Int z => Int z
            | Timestamp ns => Int ns
            | Str s => from_option Int NaN (int_of_str s)
            | _ => NaN
            end) <$> cs;
    to_numeric_length cs := length_fmap _ cs;
    sort_cells A k l := merge_sort (λ a b, cell_leb (k a) (k b) = true) l;
    sort_cells_perm A k l := merge_sort_Permutation _ l;
    sort_cells_sorted A k l := Sorted_merge_sort _ l
  |}.
  - intros e s Hfits. unfold checked_days. by rewrite decide_True.
  - unfold checked_days, overflows, fits, int64_limit. intros e s Hover.
    rewrite decide_False by lia. eauto.
  - intros e s Hfits. unfold checked_days. by rewrite decide_True.
  - unfold checked_days, overflows, fits, int64_limit. intros e s Hover.
    rewrite decide_False by lia. eauto.
Defined.

(** ** Frames for the examples *)

Definition text_rows (ts : list cell) : DataFrame :=
  mkDF {["task"]} ((λ t, {["task" := t]}) <$> ts).

Definition detected (df : DataFrame) : DataFrame :=
  match _detect_structure df with Ok out => out | Raise _ => mkDF ∅ [] end.

Definition nth_row (i : nat) (df : DataFrame) : Series :=
  default ∅ (rows df !! i).

(** [BLOCK "A", PHASE "1", TASK "x"] *)
Definition frame_A_1_x : DataFrame :=
  text_rows [Str (py "A"); Str (py "1"); Str (py "x")].

(** A block header followed by a row with no text. *)
Definition frame_A_null : DataFrame := text_rows [Str (py "A"); NaN].


(** A sheet whose only text cell holds one space. *)
Definition frame_blank : DataFrame := text_rows [Str (py " ")].

(** Midnight of January [d], 2024, in nanoseconds and as a cell. *)
Definition jan_ns (d : Z) : Z := (19722 + d) * ns_per_day.
Definition jan (d : Z) : cell := Timestamp (jan_ns d).

Definition task_columns : gset string :=
  {[ "level"; "bloc"; "phase"; "task_name"; "start_date"; "end_date";
     "duration"; "progress"; "value" ]}.

(** A task row of block "GROS OEUVRE", phase "1.1". *)
Definition task_row (name : string) (start_ end_ : cell)
  (duration progress value : cell) : Series :=
  {[ "level" := tache; "bloc" := Str (py "GROS OEUVRE");
     "phase" := Str (py "1.1"); "task_name" := Str (py name);
     "start_date" := start_; "end_date" := end_; "duration" := duration;
     "progress" := progress; "value" := value ]}.

(** [TaskA: Jan1–Jan10, TaskB: Jan5–Jan15] in one phase. *)
Definition task_A : Series :=
  task_row "TaskA" (jan 1) (jan 10) (Int 9) (Int 100) (Int 1000).
Definition task_B : Series :=
  task_row "TaskB" (jan 5) (jan 15) (Int 10) (Int 50) (Int 2000).
Definition frame_A_B : DataFrame := mkDF task_columns [task_A; task_B].

(** Start January 1, end January 6: five days.  The stated durations are
    4 (off by one), 3 and 7 (off by two). *)
Definition frame_five_days : DataFrame :=
  mkDF task_columns
    [ task_row "Fouilles" (jan 1) (jan 6) (Int 4) (Int 100) (Int 1000);
      task_row "Semelles" (jan 1) (jan 6) (Int 3) (Int 100) (Int 1000);
      task_row "Longrines" (jan 1) (jan 6) (Int 7) (Int 100) (Int 1000) ].

(** A long task followed by two short ones inside its span. *)
Definition frame_nested : DataFrame :=
  mkDF task_columns
    [ task_row "TaskA" (jan 1) (jan 30) (Int 29) (Int 100) (Int 1000);
      task_row "TaskB" (jan 2) (jan 3) (Int 1) (Int 100) (Int 1000);
      task_row "TaskC" (jan 5) (jan 6) (Int 1) (Int 100) (Int 1000) ].

(** A mapped sheet with the two date columns and no duration column. *)
Definition frame_no_duration : DataFrame :=
  mkDF {[ "task"; "start"; "end" ]}
    [ {[ "task" := Str (py "Fouilles"); "start" := jan 1; "end" := jan 6 ]} ].

Definition alert_of (s : string) : Alert := mkAlert (py s) [] None.

(** A mapped sheet: a block header, a phase header and two tasks, the
    first with no duration and a progress written as a percentage. *)
Definition sheet_row (task start_ end_ duration progress : cell) : Series :=
  {[ "task" := task; "start" := start_; "end" := end_;
     "duration" := duration; "progress" := progress ]}.

Definition frame_sheet : DataFrame :=
  mkDF {[ "task"; "start"; "end"; "duration"; "progress" ]}
    [ sheet_row (Str (py "LOT A")) NaN NaN NaN NaN;
      sheet_row (Str (py "1.1 - Terrassement")) NaN NaN NaN NaN;
      sheet_row (Str (py "Fouilles")) (jan 1) (jan 6) NaN (Str (py "50%"));
      sheet_row (Str (py "Semelles")) (jan 6) (jan 10) (Int 4) (Int 100) ].

Definition cleaned (df : DataFrame) : DataFrame :=
  match _clean_data df with Ok out => out | Raise _ => mkDF ∅ [] end.

Definition parsed (df : DataFrame) : DataFrame :=
  match parse_excel df with Ok out => out | Raise _ => mkDF ∅ [] end.

Definition validated (today : Z) (df : DataFrame) : list Alert :=
  match validate today df with Ok alerts => alerts | Raise _ => [] end.

(** Task rows with defects: a negative progress, a task that ends when
    it starts, a task that ends before it starts with a progress above
    100, a sound task, and a task with nothing filled in. *)
Definition frame_defects : DataFrame :=
  mkDF task_columns
    [ task_row "Fouilles" (jan 1) (jan 6) (Int 5) (Int (-5)) (Int 1000);
      task_row "Semelles" (jan 6) (jan 6) (Int 0) (Int 0) (Int 1000);
      task_row "Longrines" (jan 10) (jan 8) (Int 2) (Int 120) (Int 1000);
      task_row "Dalle" (jan 10) (jan 12) (Int 2) (Int 100) (Int 1000);
      task_row "Poteaux" NaT NaT NaN NaN NaN ].

(** Midnight of January 1 of 1901 and of 2250: two timestamps that
    pandas holds, more than 2^63 nanoseconds apart. *)
Definition year_1901 : cell := Timestamp (-25202 * ns_per_day).
Definition year_2250 : cell := Timestamp (102268 * ns_per_day).

(** A mapped sheet with one task from 1901 to 2250 and no duration. *)
Definition frame_long_span : DataFrame :=
  mkDF {[ "task"; "start"; "end"; "duration"; "progress" ]}
    [ sheet_row (Str (py "Tunnel")) year_1901 year_2250 NaN NaN ].

(** The same task in a normalised frame, with a duration. *)
Definition frame_long_task : DataFrame :=
  mkDF task_columns
    [ task_row "Tunnel" year_1901 year_2250 (Int 10) (Int 0) (Int 1000) ].

(** * What the code guarantees *)

Ltac row_facts :=
  simpl; unfold has_text, label, get; repeat case_decide;
  simplify_map_eq; try done.

(** ** The hierarchy detector *)

Section ParserFacts.
Context `{Unicode} `{Pandas}.

Lemma rows_init_structure (df : DataFrame) :
  rows (init_structure df) = init_row <$> rows df.
Proof.
  unfold init_structure, assign, init_row; simpl.
  rewrite <- !list_fmap_compose. reflexivity.
Qed.

Lemma init_row_level (r : Series) : init_row r !! "level" = Some tache.
Proof. unfold init_row. by simplify_map_eq. Qed.

Lemma init_row_bloc (r : Series) : init_row r !! "bloc" = Some PyNone.
Proof. unfold init_row. by simplify_map_eq. Qed.

Lemma init_row_phase (r : Series) : init_row r !! "phase" = Some PyNone.
Proof. unfold init_row. by simplify_map_eq. Qed.

Lemma init_row_other (r : Series) (c : string) :
  c ≠ "level" → c ≠ "bloc" → c ≠ "phase" → init_row r !! c = r !! c.
Proof. intros. unfold init_row. by simplify_map_eq. Qed.

(** Two rows that agree away from the three columns are the same row
    after initialisation. *)
Lemma init_row_ext (r r' : Series) :
  (∀ c, c ≠ "level" → c ≠ "bloc" → c ≠ "phase" → r !! c = r' !! c) →
  init_row r = init_row r'.
Proof.
  intros E. apply map_eq. intros c.
  destruct (decide (c = "level")) as [->|?]; [by rewrite !init_row_level|].
  destruct (decide (c = "bloc")) as [->|?]; [by rewrite !init_row_bloc|].
  destruct (decide (c = "phase")) as [->|?]; [by rewrite !init_row_phase|].
  rewrite !init_row_other by done. by apply E.
Qed.

Lemma init_row_idemp (r : Series) : init_row (init_row r) = init_row r.
Proof. apply init_row_ext. intros. by apply init_row_other. Qed.

Lemma classify_Ok (b p : cell) (row row' : Series) (b' p' : cell) :
  classify b p row = Ok (row', (b', p')) → classified b p row row' b' p'.
Proof.
  unfold classify. intros E.
  destruct (row !! "task") as [t|] eqn:Et; [|simplify_eq].
  - destruct (notna t) eqn:Ent; [|simplify_eq].
    + destruct (isupper (strip (py_str t)) && isna (get row "start")) eqn:Eb.
      * apply andb_true_iff in Eb as [? ?]. simplify_eq. by eapply is_bloc.
      * destruct (index (strip (py_str t)) 0) as [c0|]; [|discriminate].
        case_match; simplify_eq; [by eapply is_phase | by eapply is_tache].
    + apply is_untouched. congruence.
  - apply is_untouched. congruence.
Qed.

Lemma detect_loop_cons_Ok (b p : cell) (row : Series) rest out :
  detect_loop b p (row :: rest) = Ok out →
  ∃ row' b' p' out',
    classified b p row row' b' p' ∧ detect_loop b' p' rest = Ok out' ∧
    out = row' :: out'.
Proof.
  simpl. destruct (classify b p row) as [[row' [b' p']]|] eqn:Ec; [|done].
  simpl. destruct (detect_loop b' p' rest) as [out'|] eqn:El; [|done].
  simpl. intros [= <-]. exists row', b', p', out'.
  auto using classify_Ok.
Qed.

Lemma classified_init_row b p row row' b' p' :
  classified b p row row' b' p' → init_row row' = init_row row.
Proof.
  intros []; try reflexivity;
    apply init_row_ext; intros; by simplify_map_eq.
Qed.

Lemma detect_loop_init_row (rs : list Series) : ∀ b p out,
  detect_loop b p rs = Ok out → init_row <$> out = init_row <$> rs.
Proof.
  induction rs as [|row rest IH]; intros b p out E.
  - by inversion E.
  - apply detect_loop_cons_Ok in E as (row' & b' & p' & out' & Hc & Hl & ->).
    rewrite !fmap_cons.
    f_equal; [by eapply classified_init_row | by eapply IH].
Qed.

End ParserFacts.

Section ParserTheorems.
Context `{Unicode} `{Pandas}.

Lemma levels_distinct : tache ≠ bloc ∧ tache ≠ phase ∧ phase ≠ bloc.
Proof. repeat split; intros [=]. Qed.

Lemma classified_written b p row row' b' p' before :
  classified b p row row' b' p' → fresh row →
  nearest_bloc before = b → nearest_phase before = p →
  written before row' ∧
  nearest_bloc (row' :: before) = b' ∧ nearest_phase (row' :: before) = p'.
Proof.
  destruct levels_distinct as (Htb & Htp & Hpb).
  intros Hc (Hl & Hb & Hp) <- <-.
  destruct Hc as [t Ht Hn Hu Hs|t Ht Hn|t Ht Hn|Hnone].
  - split; [apply written_bloc|]; by row_facts.
  - split; [apply written_phase|]; by row_facts.
  - split; [apply written_tache|]; by row_facts.
  - split; [apply written_default|]; row_facts.
    destruct (row !! "task") as [t|] eqn:Et; [by apply Hnone|done].
Qed.

Lemma detect_loop_written (rs : list Series) : ∀ b p out before,
  detect_loop b p rs = Ok out → Forall fresh rs →
  nearest_bloc before = b → nearest_phase before = p →
  ∀ i r, out !! i = Some r → written (reverse (take i out) ++ before) r.
Proof.
  induction rs as [|row rest IH]; intros b p out before E Hf Hb Hp i r Hi.
  - by inversion E; subst.
  - apply detect_loop_cons_Ok in E as (row' & b' & p' & out' & Hc & Hl & ->).
    apply Forall_cons in Hf as [Hrow Hrest].
    destruct (classified_written _ _ _ _ _ _ before Hc Hrow Hb Hp)
      as (Hw & Hb' & Hp').
    destruct i as [|i]; simpl in Hi.
    + by simplify_eq.
    + simpl. rewrite reverse_cons, <- app_assoc. simpl.
      by eapply (IH b' p' out' (row' :: before)).
Qed.

Lemma detect_written (df out : DataFrame) (i : nat) (r : Series) :
  _detect_structure df = Ok out → rows out !! i = Some r →
  written (preceding i out) r.
Proof.
  unfold _detect_structure. rewrite rows_init_structure. intros E Hi.
  destruct (detect_loop _ _ _) as [rows'|] eqn:El; [|done].
  simpl in E. simplify_eq. unfold preceding. simpl in *.
  rewrite <- (app_nil_r (reverse _)).
  eapply detect_loop_written; eauto.
  apply Forall_fmap, Forall_true. intros r0.
  repeat split; [apply init_row_level|apply init_row_bloc|apply init_row_phase].
Qed.

Lemma classified_dom b p row row' b' p' :
  classified b p row row' b' p' → fresh row → dom row' = dom row.
Proof.
  intros Hc (Hl & Hb & Hp).
  assert ("level" ∈ dom row) by (apply elem_of_dom; eauto).
  assert ("bloc" ∈ dom row) by (apply elem_of_dom; eauto).
  assert ("phase" ∈ dom row) by (apply elem_of_dom; eauto).
  destruct Hc; [| | |reflexivity]; rewrite !dom_insert_L;
    apply set_eq; intros c; set_unfold; intuition (subst; auto).
Qed.

Lemma detect_loop_dom (cols : gset string) (rs : list Series) : ∀ b p out,
  detect_loop b p rs = Ok out → Forall fresh rs →
  Forall (λ r : Series, dom r = cols) rs →
  Forall (λ r : Series, dom r = cols) out.
Proof.
  induction rs as [|row rest IH]; intros b p out E Hf Hd.
  - by inversion E.
  - apply detect_loop_cons_Ok in E as (row' & b' & p' & out' & Hc & Hl & ->).
    apply Forall_cons in Hf as [Hrow Hrest].
    apply Forall_cons in Hd as [Hdrow Hdrest].
    apply Forall_cons. split; [|by eapply IH].
    by rewrite (classified_dom _ _ _ _ _ _ Hc Hrow).
Qed.

(** The detector returns a frame whose rows carry its columns. *)
Lemma detect_structure_wf (df out : DataFrame) :
  wf df → _detect_structure df = Ok out → wf out.
Proof.
  unfold wf, _detect_structure. rewrite rows_init_structure. intros Hwf E.
  destruct (detect_loop _ _ _) as [rows'|] eqn:El; [|done].
  simpl in E. simplify_eq. simpl.
  eapply detect_loop_dom; [exact El| |].
  - apply Forall_fmap, Forall_true. intros r0.
    repeat split;
      [apply init_row_level|apply init_row_bloc|apply init_row_phase].
  - apply Forall_fmap. eapply Forall_impl; [exact Hwf|].
    intros r Hr. simpl. unfold init_row. rewrite !dom_insert_L.
    by rewrite Hr.
Qed.

(** C1, as amended.  A row classified as a task whose text is present
    carries in [bloc] the label of the nearest preceding row classified
    as a block, and in [phase] the label of the nearest preceding row
    classified as a phase since that block (null where there is none).
    A row left at the default classification because its text is null
    carries null in both. *)
Theorem task_rows_carry_context (df out : DataFrame) (i : nat) (r : Series) :
  _detect_structure df = Ok out → rows out !! i = Some r →
  r !! "level" = Some tache →
  if has_text r then task_context out i r
  else r !! "bloc" = Some PyNone ∧ r !! "phase" = Some PyNone.
Proof.
  destruct levels_distinct as (Htb & Htp & Hpb).
  intros E Hi Hl.
  destruct (detect_written df out i r E Hi) as [? Ht|? Ht|? Ht|? Ht];
    rewrite Ht; unfold task_context; split; congruence.
Qed.

(** C3, as amended.  A row classified as a block carries its own label in
    [bloc] and null in [phase]; a row classified as a phase carries the
    label of the enclosing block in [bloc] (null where there is none) and
    its own label in [phase]. *)
Theorem header_rows_carry_own_label
  (df out : DataFrame) (i : nat) (r : Series) :
  _detect_structure df = Ok out → rows out !! i = Some r →
  (r !! "level" = Some bloc →
     r !! "bloc" = Some (label r) ∧ r !! "phase" = Some PyNone) ∧
  (r !! "level" = Some phase →
     r !! "bloc" = Some (nearest_bloc (preceding i out)) ∧
     r !! "phase" = Some (label r)).
Proof.
  destruct levels_distinct as (Htb & Htp & Hpb).
  intros E Hi.
  destruct (detect_written df out i r E Hi);
    split; intros; split; congruence.
Qed.

(** A row whose text is null is left at the default classification. *)
Lemma null_text_row_default (df out : DataFrame) (i : nat) (r : Series) :
  _detect_structure df = Ok out → rows out !! i = Some r →
  has_text r = false →
  r !! "level" = Some tache ∧ r !! "bloc" = Some PyNone ∧
  r !! "phase" = Some PyNone.
Proof.
  intros E Hi Ht.
  destruct (detect_written df out i r E Hi); repeat split; congruence.
Qed.

(** A row whose text is blank once stripped stops the detector. *)
Lemma blank_text_raises (b p : cell) (row : Series) (t : cell) rest :
  row !! "task" = Some t → notna t = true → strip (py_str t) = [] →
  detect_loop b p (row :: rest) = Raise IndexError.
Proof.
  intros Ht Hn Hs. simpl. unfold classify. rewrite Ht, Hn, Hs. reflexivity.
Qed.



(** C8.  Running the detector on its own output gives that output again
    (and where the first run raises, there is no output to run on). *)
Theorem detect_idempotent (df : DataFrame) :
  (_detect_structure df ≫= _detect_structure) = _detect_structure df.
Proof.
  destruct (_detect_structure df) as [out|e] eqn:E; [|reflexivity].
  simpl. revert E. unfold _detect_structure.
  rewrite !rows_init_structure.
  destruct (detect_loop _ _ (init_row <$> rows df)) as [rows'|] eqn:El;
    [|done].
  simpl. intros [= <-]. simpl.
  apply detect_loop_init_row in El as Hrows.
  rewrite <- list_fmap_compose in Hrows.
  rewrite (list_fmap_ext (init_row ∘ init_row) init_row) in Hrows
    by (intros; apply init_row_idemp).
  rewrite Hrows, El. simpl. f_equal. f_equal.
  unfold init_structure, assign; simpl.
  apply set_eq. intros c. set_unfold. tauto.
Qed.

End ParserTheorems.

Lemma task_rows_carry_context_witness :
  task_context (detected frame_A_1_x) 2 (nth_row 2 (detected frame_A_1_x)) ∧
  nth_row 1 (detected frame_A_null) !! "bloc" = Some PyNone ∧
  nth_row 1 (detected frame_A_null) !! "phase" = Some PyNone.
Proof.
  split.
  - apply (task_rows_carry_context frame_A_1_x (detected frame_A_1_x) 2
             (nth_row 2 (detected frame_A_1_x)));
      vm_compute; reflexivity.
  - apply (task_rows_carry_context frame_A_null (detected frame_A_null) 1
             (nth_row 1 (detected frame_A_null)));
      vm_compute; reflexivity.
Defined.

(** On the example of the specification the task row gets "A" and "1". *)
Example frame_A_1_x_task :
  nth_row 2 (detected frame_A_1_x) !! "bloc" = Some (Str (py "A")) ∧
  nth_row 2 (detected frame_A_1_x) !! "phase" = Some (Str (py "1")).
Proof. vm_compute. split; reflexivity. Qed.

(** C1 as stated fails: the second row is classified as a task, a block
    precedes it, and its [bloc] is null. *)
Lemma task_context_fails_on_null_text :
  _detect_structure frame_A_null = Ok (detected frame_A_null) ∧
  rows (detected frame_A_null) !! 1%nat = Some (nth_row 1 (detected frame_A_null)) ∧
  nth_row 1 (detected frame_A_null) !! "level" = Some tache ∧
  nearest_bloc (preceding 1 (detected frame_A_null)) = Str (py "A") ∧
  ¬ task_context (detected frame_A_null) 1 (nth_row 1 (detected frame_A_null)).
Proof.
  repeat split; try (vm_compute; reflexivity).
  intros [Hb _]. vm_compute in Hb. discriminate Hb.
Qed.

Lemma header_rows_carry_own_label_witness :
  (nth_row 0 (detected frame_A_1_x) !! "bloc"
     = Some (label (nth_row 0 (detected frame_A_1_x))) ∧
   nth_row 0 (detected frame_A_1_x) !! "phase" = Some PyNone) ∧
  (nth_row 1 (detected frame_A_1_x) !! "bloc"
     = Some (nearest_bloc (preceding 1 (detected frame_A_1_x))) ∧
   nth_row 1 (detected frame_A_1_x) !! "phase"
     = Some (label (nth_row 1 (detected frame_A_1_x)))).
Proof.
  split.
  - apply (header_rows_carry_own_label frame_A_1_x (detected frame_A_1_x) 0
             (nth_row 0 (detected frame_A_1_x)));
      vm_compute; reflexivity.
  - apply (header_rows_carry_own_label frame_A_1_x (detected frame_A_1_x) 1
             (nth_row 1 (detected frame_A_1_x)));
      vm_compute; reflexivity.
Defined.

(** C3 as stated fails: the block row holds its own label in [bloc], and
    the phase row holds its own label in [phase]. *)
Lemma header_fields_not_null :
  _detect_structure frame_A_1_x = Ok (detected frame_A_1_x) ∧
  (nth_row 0 (detected frame_A_1_x) !! "level" = Some bloc ∧
   nth_row 0 (detected frame_A_1_x) !! "bloc" = Some (Str (py "A")) ∧
   nth_row 0 (detected frame_A_1_x) !! "bloc" ≠ Some PyNone) ∧
  (nth_row 1 (detected frame_A_1_x) !! "level" = Some phase ∧
   nth_row 1 (detected frame_A_1_x) !! "phase" = Some (Str (py "1")) ∧
   nth_row 1 (detected frame_A_1_x) !! "phase"
     = Some (label (nth_row 1 (detected frame_A_1_x)))).
Proof.
  repeat split; try (vm_compute; reflexivity).
  vm_compute. discriminate.
Qed.


(** C2.  A text cell that is blank once stripped makes the detector index
    an empty string: it raises, for a cell of one space as for an empty
    string. *)
Theorem detect_blank_text_raises :
  _detect_structure frame_blank = Raise IndexError ∧
  _detect_structure (text_rows [Str []]) = Raise IndexError ∧
  _detect_structure (text_rows [Str (py "A"); Str (py "  "); Str (py "x")])
    = Raise IndexError.
Proof. vm_compute. repeat split; reflexivity. Qed.

(** ** The parser as a whole *)

Section CleaningTheorems.
Context `{Unicode} `{Pandas}.

Lemma columns_coerce_date (c : string) (df : DataFrame) :
  columns (coerce_date c df) = columns df.
Proof.
  unfold coerce_date. case_decide; [|reflexivity]. simpl.
  apply set_eq. intros x. set_unfold. split; [intros [->|?]|]; auto.
Qed.

Lemma columns_detect_structure (df out : DataFrame) :
  _detect_structure df = Ok out →
  columns out = {["phase"]} ∪ ({["bloc"]} ∪ ({["level"]} ∪ columns df)).
Proof.
  unfold _detect_structure.
  destruct (detect_loop _ _ _); simpl; [|done]. by intros [= <-].
Qed.

(** The back-fill of [_clean_data] reads [df['duration']] whenever both
    date columns exist. *)
Lemma clean_data_without_duration (df : DataFrame) :
  "start" ∈ columns df → "end" ∈ columns df → "duration" ∉ columns df →
  _clean_data df = Raise (KeyError "duration").
Proof.
  intros Hs He Hd. unfold _clean_data.
  rewrite decide_True by (by rewrite !columns_coerce_date).
  rewrite decide_False by (by rewrite !columns_coerce_date).
  reflexivity.
Qed.

Lemma detect_loop_raises (rs : list Series) : ∀ b p e,
  detect_loop b p rs = Raise e → e = IndexError.
Proof.
  induction rs as [|r rs IH]; intros b p e; simpl; [done|].
  destruct (classify b p r) as [[r' [b' p']]|e0] eqn:Ec; simpl.
  - destruct (detect_loop b' p' rs) eqn:El; simpl; [done|].
    intros [= <-]. by eapply IH.
  - intros [= <-]. revert Ec. unfold classify.
    repeat case_match; congruence.
Qed.

(** The only way for the detector to raise. *)
Lemma detect_structure_raises (df : DataFrame) (e : exn) :
  _detect_structure df = Raise e → e = IndexError.
Proof.
  unfold _detect_structure.
  destruct (detect_loop _ _ _) as [?|e'] eqn:El; simpl; [done|].
  intros [= <-]. by eapply detect_loop_raises.
Qed.

(** C9.  When the mapped frame has the two date columns and no duration
    column, [parse_excel] raises: the detector either stops on a blank
    text cell, or hands over a frame on which [_clean_data] raises
    [KeyError('duration')]; either way the caller gets the exception that
    wraps it and no frame. *)
Theorem parse_excel_without_duration_raises (df_mapped : DataFrame) :
  "start" ∈ columns df_mapped → "end" ∈ columns df_mapped →
  "duration" ∉ columns df_mapped →
  (∀ df_structured, _detect_structure df_mapped = Ok df_structured →
     _clean_data df_structured = Raise (KeyError "duration")) ∧
  (parse_excel df_mapped
     = Raise (Exception (py "Erreur parsing: 'duration'")) ∨
   parse_excel df_mapped
     = Raise (Exception (py "Erreur parsing: string index out of range"))).
Proof.
  intros Hs He Hd.
  assert (Hclean : ∀ df_structured,
    _detect_structure df_mapped = Ok df_structured →
    _clean_data df_structured = Raise (KeyError "duration")).
  { intros out E. apply columns_detect_structure in E.
    apply clean_data_without_duration; rewrite E; set_unfold; try tauto.
    intros [?|[?|[?|?]]]; done. }
  split; [exact Hclean|].
  unfold parse_excel.
  destruct (_detect_structure df_mapped) as [out|e] eqn:E;
    unfold mbind, result_bind.
  - left. rewrite (Hclean out eq_refl). vm_compute. reflexivity.
  - right. apply detect_structure_raises in E as ->. vm_compute. reflexivity.
Qed.

End CleaningTheorems.

(** ** The validation rules *)

Section ValidatorFacts.
Context `{Pandas}.

Lemma bind_Ok {A B : Type} (a : A) (f : A → result B) : (Ok a ≫= f) = f a.
Proof. reflexivity. Qed.

Lemma bind_Raise {A B : Type} (e : exn) (f : A → result B) :
  (Raise e ≫= f) = Raise e.
Proof. reflexivity. Qed.

Lemma Ok_inj {A : Type} (x y : A) : Ok x = Ok y → x = y.
Proof. by intros [= ->]. Qed.

Lemma for_each_ext {A : Type} (f g : A → result (list Alert)) (l : list A) :
  (∀ x, x ∈ l → f x = g x) → for_each f l = for_each g l.
Proof.
  induction l as [|x l IH]; intros E; simpl; [reflexivity|].
  rewrite (E x) by left. rewrite IH; [reflexivity|].
  intros y Hy. apply E. by right.
Qed.

(** A loop whose body never raises gathers what each turn finds. *)
Lemma for_each_pure {A : Type} (f : A → result (list Alert))
  (g : A → list Alert) (l : list A) :
  (∀ x, x ∈ l → f x = Ok (g x)) → for_each f l = Ok (concat (g <$> l)).
Proof.
  induction l as [|x l IH]; intros E; simpl; [reflexivity|].
  rewrite (E x) by left. rewrite IH; [reflexivity|].
  intros y Hy. apply E. by right.
Qed.

Lemma for_each_fmap {A B : Type} (f : B → result (list Alert)) (h : A → B)
  (l : list A) :
  for_each f (h <$> l) = for_each (f ∘ h) l.
Proof. induction l as [|x l IH]; csimpl; [reflexivity|]. by rewrite IH. Qed.

Lemma elem_of_iterrows (df : DataFrame) (i : nat) (r : Series) :
  (i, r) ∈ iterrows df ↔ rows df !! i = Some r.
Proof.
  unfold iterrows. rewrite elem_of_lookup_imap. split.
  - by intros (j & y & [= -> ->] & Hy).
  - intros Hi. by exists i, r.
Qed.

Lemma elem_of_tasks_of (df : DataFrame) tasks (i : nat) (r : Series) :
  tasks_of df = Ok tasks →
  (i, r) ∈ tasks ↔ rows df !! i = Some r ∧ get r "level" = tache.
Proof.
  unfold tasks_of. case_decide; [|done]. intros [= <-].
  rewrite list_elem_of_filter, elem_of_iterrows. simpl. tauto.
Qed.

Lemma dropna_Ok (subset : list string) (cols : gset string) tasks :
  Forall (λ c, c ∈ cols) subset →
  dropna subset cols tasks
    = Ok (filter (λ ir : nat * Series,
                    forallb (λ c, notna (get ir.2 c)) subset = true) tasks).
Proof.
  intros Hall. unfold dropna.
  replace (filter (λ c, c ∉ cols) subset) with (@nil string); [done|].
  symmetry. induction Hall as [|c l Hc Hl IH]; [done|].
  rewrite filter_cons. by rewrite decide_False by tauto.
Qed.





Lemma concat_fmap_filter {A B : Type} (P : A → Prop) `{∀ x, Decision (P x)}
  (g : A → list B) (l : list A) :
  (∀ x, x ∈ l → ¬ P x → g x = []) →
  concat (g <$> filter P l) = concat (g <$> l).
Proof.
  induction l as [|x l IH]; intros E; [reflexivity|].
  rewrite filter_cons. csimpl.
  rewrite <- IH by (intros y Hy; apply E; by right).
  case_decide; csimpl; [reflexivity|].
  rewrite (E x); [reflexivity|by left|done].
Qed.

Lemma duration_coherence_Ok (df : DataFrame) tasks :
  Forall (λ c, c ∈ columns df) ["level"; "start_date"; "end_date"; "duration"] →
  Forall (λ r : Series, get r "level" = tache → normalized_task r = true)
    (rows df) →
  Forall (λ r : Series, get r "level" = tache → span_fits r) (rows df) →
  tasks_of df = Ok tasks →
  _check_duration_coherence df = Ok (concat (duration_finding <$> tasks)).
Proof.
  intros Hcols Htyped Hspans Htasks. unfold _check_duration_coherence.
  rewrite Htasks. unfold mbind at 1, result_bind at 1.
  rewrite dropna_Ok by (by inversion Hcols).
  unfold mbind at 1, result_bind at 1.
  assert (Hnorm : ∀ ir, ir ∈ tasks → normalized_task ir.2 = true).
  { intros [i r] Hin. apply (elem_of_tasks_of df _ i r Htasks) in Hin as [Hi Hl].
    rewrite Forall_lookup in Htyped. by eapply Htyped. }
  assert (Hfits : ∀ ir, ir ∈ tasks → span_fits ir.2).
  { intros [i r] Hin. apply (elem_of_tasks_of df _ i r Htasks) in Hin as [Hi Hl].
    rewrite Forall_lookup in Hspans. by eapply Hspans. }
  rewrite <- (concat_fmap_filter
    (λ ir : nat * Series,
       forallb (λ c, notna (get ir.2 c))
         ["start_date"; "end_date"; "duration"] = true)).
  - apply for_each_pure. intros [i r] Hin.
    apply list_elem_of_filter in Hin as [Hna Hin].
    pose proof (Hfits _ Hin) as Hfit. apply Hnorm in Hin.
    revert Hna Hin Hfit.
    unfold span_fits, normalized_task, duration_finding, get, item.
    simpl.
    destruct (r !! "start_date") as [[| | | |?|s]|]; simpl; try done;
    destruct (r !! "end_date") as [[| | | |?|e]|]; simpl; try done;
    destruct (r !! "duration") as [[| | | |d|?]|]; simpl; try done.
    intros _ _ Hfit.
    rewrite (timestamp_days_fits e s (Hfit s e eq_refl eq_refl)).
    simpl. unfold bool_decide.
    by destruct (decide_rel _ _ 1).
  - intros [i r] Hin Hna. apply Hnorm in Hin.
    revert Hna Hin. unfold normalized_task, duration_finding, get.
    simpl.
    destruct (r !! "start_date") as [[| | | |?|s]|]; simpl; try done;
    destruct (r !! "end_date") as [[| | | |?|e]|]; simpl; try done;
    destruct (r !! "duration") as [[| | | |d|?]|]; simpl; try done.
Qed.

Lemma elem_of_concat {A : Type} (x : A) (ls : list (list A)) :
  x ∈ concat ls ↔ ∃ l, x ∈ l ∧ l ∈ ls.
Proof.
  induction ls as [|l ls IH]; simpl.
  - split; [by intros ?%elem_of_nil|]. by intros (? & _ & ?%elem_of_nil).
  - rewrite elem_of_app, IH. split.
    + intros [?|(l' & ? & ?)]; [exists l|exists l']; split; auto;
        by constructor.
    + intros (l' & Hx & [->|?]%elem_of_cons); [by left|right; by exists l'].
Qed.

Lemma get_level_tache (r : Series) :
  get r "level" = tache ↔ r !! "level" = Some tache.
Proof.
  unfold get. destruct (r !! "level") as [c|]; simpl; split;
    intros E; by simplify_eq.
Qed.


Lemma for_each_raises {A : Type} (body : A → result (list Alert))
  (l : list A) (x : A) :
  x ∈ l → (∃ e, body x = Raise e) → ∃ e, for_each body l = Raise e.
Proof.
  intros Hx [e He]. induction l as [|y l IH]; [by apply elem_of_nil in Hx|].
  simpl. apply elem_of_cons in Hx as [<-|Hx].
  - rewrite He. eauto.
  - destruct (body y) as [found|e']; [rewrite bind_Ok|eauto].
    destruct (IH Hx) as [e' ->]. eauto.
Qed.

(** Beyond the bound of C4 the rule does not return: a task row with a
    duration and two dates whose difference overflows makes it raise. *)
Lemma duration_coherence_overflow_raises (df : DataFrame) (i : nat)
  (r : Series) (s e : Z) (d : cell) :
  Forall (λ c, c ∈ columns df) ["level"; "start_date"; "end_date"; "duration"] →
  rows df !! i = Some r → get r "level" = tache →
  r !! "start_date" = Some (Timestamp s) →
  r !! "end_date" = Some (Timestamp e) →
  r !! "duration" = Some d → notna d = true → overflows e s →
  ∃ x, _check_duration_coherence df = Raise x.
Proof.
  intros Hcols Hi Hl Es Ee Ed Hd Hover. unfold _check_duration_coherence.
  destruct (tasks_of df) as [tasks|] eqn:Ht; [rewrite bind_Ok|eauto].
  rewrite dropna_Ok, bind_Ok by (by inversion Hcols).
  apply (for_each_raises _ _ (i, r)).
  - apply list_elem_of_filter. split.
    + simpl. unfold get. rewrite Es, Ee, Ed. simpl. by rewrite Hd.
    + by apply (elem_of_tasks_of df _ i r Ht).
  - unfold item. rewrite Ee, Es. rewrite !bind_Ok. unfold days_between.
    destruct (timestamp_days_overflows e s Hover) as [x ->]. eauto.
Qed.

Lemma py_gt_same_side (today today' : Z) (r : Series) (c : cell) :
  same_side today today' r → r !! "start_date" = Some c →
  py_gt c (Timestamp today) = py_gt c (Timestamp today').
Proof.
  intros Hside Hc. unfold py_gt.
  destruct c as [| | |?|?|s]; simpl; try reflexivity.
  specialize (Hside s Hc). f_equal. f_equal.
  destruct (Z.leb_spec s today), (Z.leb_spec s today'); auto; lia.
Qed.

Lemma future_progress_same_side (today today' : Z) (df : DataFrame) :
  Forall (same_side today today') (rows df) →
  _check_future_progress today df = _check_future_progress today' df.
Proof.
  intros Hside. unfold _check_future_progress.
  destruct (tasks_of df) as [tasks|] eqn:Htasks; [|reflexivity].
  rewrite !bind_Ok.
  destruct (dropna _ _ tasks) as [kept|] eqn:Hkept; [|reflexivity].
  rewrite !bind_Ok.
  apply for_each_ext. intros [i r] Hin.
  assert (Hr : same_side today today' r).
  { revert Hkept. unfold dropna. case_match; [|done]. intros [= <-].
    apply list_elem_of_filter in Hin as [_ Hin].
    apply (elem_of_tasks_of df _ i r Htasks) in Hin as [Hi _].
    rewrite Forall_lookup in Hside. by eapply Hside. }
  destruct (item r "start_date") as [c|] eqn:Ec; [|reflexivity].
  rewrite !bind_Ok. rewrite (py_gt_same_side today today' r c); [done..|].
  revert Ec. unfold item. by case_match; intros [= <-].
Qed.

(** C5, as amended.  With the day on which it runs held fixed, the
    engine is a function of the frame alone: its result is the results of
    the eight rules, each run on the same frame, in the order of the rule
    list (the first rule that raises ends the run).  Only the last rule
    reads the day, and the result is the same on two days that lie on the
    same side of every start date. *)
Theorem validate_fixed_rule_order (today : Z) (df : DataFrame) :
  validate today df =
    (missing_dates ← _check_missing_dates df;
     duration ← _check_duration_coherence df;
     progress ← _check_progress_range df;
     date_order ← _check_date_order df;
     orphans ← _check_orphan_tasks df;
     overlaps ← _check_overlapping_tasks df;
     missing_values ← _check_missing_values df;
     future ← _check_future_progress today df;
     Ok (missing_dates ++ duration ++ progress ++ date_order ++ orphans ++
         overlaps ++ missing_values ++ future)) ∧
  ∀ today', Forall (same_side today today') (rows df) →
    validate today df = validate today' df.
Proof.
  split.
  - unfold validate, rules. simpl for_each.
    destruct (_check_missing_dates df); [rewrite !bind_Ok|reflexivity].
    destruct (_check_duration_coherence df); [rewrite !bind_Ok|reflexivity].
    destruct (_check_progress_range df); [rewrite !bind_Ok|reflexivity].
    destruct (_check_date_order df); [rewrite !bind_Ok|reflexivity].
    destruct (_check_orphan_tasks df); [rewrite !bind_Ok|reflexivity].
    destruct (_check_overlapping_tasks df); [rewrite !bind_Ok|reflexivity].
    destruct (_check_missing_values df); [rewrite !bind_Ok|reflexivity].
    destruct (_check_future_progress today df); [rewrite !bind_Ok|reflexivity].
    by rewrite app_nil_r.
  - intros today' Hside. unfold validate, rules. simpl for_each.
    by rewrite (future_progress_same_side today today' df Hside).
Qed.

End ValidatorFacts.

(** ** The overlap rule *)

Section OverlapTheorems.
Context `{Pandas}.

Lemma index_loop_adjacent_pairs (l : list (nat * Series)) :
  for_each (λ i,
      match l !! i, l !! (i + 1)%nat with
      | Some current, Some next_task => overlap_alert current next_task
      | _, _ => Raise IndexError
      end) (seq 0 (length l - 1))
  = for_each (λ '(earlier, later), overlap_alert earlier later)
      (adjacent_pairs l).
Proof.
  induction l as [|a [|b t] IH]; [reflexivity..|].
  replace (length (a :: b :: t) - 1)%nat with (S (length (b :: t) - 1))
    by (simpl; lia).
  rewrite <- cons_seq, <- fmap_S_seq.
  change (adjacent_pairs (a :: b :: t))
    with ((a, b) :: adjacent_pairs (b :: t)).
  cbn [for_each]. rewrite for_each_fmap, <- IH. reflexivity.
Qed.

Lemma sort_cells_two {A : Type} (k : A → cell) (a b : A) :
  cell_leb (k b) (k a) = false → sort_cells k [a; b] = [a; b].
Proof.
  intros Hlt.
  pose proof (sort_cells_perm A k [a; b]) as Hperm.
  pose proof (sort_cells_sorted A k [a; b]) as Hsorted.
  symmetry in Hperm. apply Permutation_length_2_inv in Hperm as [->| E];
    [reflexivity|].
  rewrite E in Hsorted. inversion Hsorted as [|? ? _ Hhd]; subst.
  inversion Hhd; subst. congruence.
Qed.

Lemma overlap_alert_dated (earlier later : nat * Series) (e s : Z)
  (name next_name : cell) :
  earlier.2 !! "end_date" = Some (Timestamp e) →
  later.2 !! "start_date" = Some (Timestamp s) →
  earlier.2 !! "task_name" = Some name →
  later.2 !! "task_name" = Some next_name →
  overlap_alert earlier later
    = Ok (if decide (s < e) then
            [mkAlert (py "info")
               (py "Chevauchement: " ++ py_str name ++ py " et " ++
                py_str next_name) (Some earlier.1)]
          else []).
Proof.
  intros He Hs Hn Hn'. unfold overlap_alert, item.
  rewrite He, Hs, Hn, Hn'. rewrite !bind_Ok. unfold py_gt. simpl.
  destruct (Z.leb_spec e s); case_decide; try lia; reflexivity.
Qed.

Lemma overlapping_tasks_A_B :
  _check_overlapping_tasks frame_A_B
    = Ok [mkAlert (py "info") (py "Chevauchement: TaskA et TaskB") (Some 0%nat)].
Proof.
  unfold _check_overlapping_tasks.
  replace (tasks_of frame_A_B) with (Ok [(0%nat, task_A); (1%nat, task_B)])
    by reflexivity.
  rewrite bind_Ok.
  replace (dropna _ _ _) with (Ok [(0%nat, task_A); (1%nat, task_B)])
    by reflexivity.
  rewrite bind_Ok.
  replace (unique _) with [Str (py "1.1")] by reflexivity.
  cbn [for_each].
  replace (filter _ _) with [(0%nat, task_A); (1%nat, task_B)]
    by reflexivity.
  unfold sort_values.
  replace (one_kind _) with true by reflexivity.
  rewrite sort_cells_two by reflexivity.
  rewrite bind_Ok. cbn [length Nat.sub seq for_each lookup list_lookup Nat.add].
  rewrite (overlap_alert_dated _ _ (jan_ns 10) (jan_ns 5)
             (Str (py "TaskA")) (Str (py "TaskB")))
    by reflexivity.
  reflexivity.
Qed.

Lemma for_each_bind_inv {A B : Type} (f : A → result B)
  (h : B → result (list Alert)) (l : list A) :
  ∀ alerts,
    for_each (λ x, y ← f x; h y) l = Ok alerts →
    ∃ ys, Forall2 (λ x y, f x = Ok y) l ys ∧ for_each h ys = Ok alerts.
Proof.
  induction l as [|x l IH]; intros alerts; simpl.
  - intros E. exists []. by split; [constructor|].
  - destruct (f x) as [y|] eqn:Ex; [rewrite bind_Ok|done].
    destruct (h y) as [found|] eqn:Ey; [rewrite bind_Ok|done].
    destruct (for_each _ l) as [rest|] eqn:El; [rewrite bind_Ok|done].
    intros E. destruct (IH rest eq_refl) as (ys & Hys & Erest).
    exists (y :: ys). split; [by constructor|].
    simpl. by rewrite Ey, bind_Ok, Erest, bind_Ok.
Qed.

(** The rows that the rule keeps are the task rows with phase and both
    dates present. *)
Lemma kept_phased_tasks (df : DataFrame) (tasks kept : list (nat * Series)) :
  tasks_of df = Ok tasks →
  dropna ["phase"; "start_date"; "end_date"] (columns df) tasks = Ok kept →
  kept = phased_tasks df.
Proof.
  unfold tasks_of, dropna, phased_tasks.
  case_decide; [|done]. intros Ht. apply Ok_inj in Ht. subst tasks.
  destruct (filter (λ c, c ∉ columns df) _); [|done].
  intros Hk. apply Ok_inj in Hk. subst kept.
  rewrite list_filter_filter. apply list_filter_iff. intros [i r]. simpl.
  rewrite andb_true_r, !andb_true_iff. tauto.
Qed.

Lemma sort_values_sorted (c : string) (l sorted : list (nat * Series)) :
  sort_values c l = Ok sorted →
  sorted ≡ₚ l ∧
  Sorted (λ a b : nat * Series, cell_leb (get a.2 c) (get b.2 c) = true)
    sorted.
Proof.
  unfold sort_values. destruct (one_kind _); [|done].
  intros E. apply Ok_inj in E. subst sorted.
  split; [apply sort_cells_perm|apply sort_cells_sorted].
Qed.

Lemma for_each_findings {A : Type} (body : A → result (list Alert))
  (l : list A) :
  ∀ out, for_each body l = Ok out →
    ∃ fs, Forall2 (λ x f, body x = Ok f) l fs ∧ out = concat fs.
Proof.
  induction l as [|x l IH]; intros out; simpl.
  - intros E. apply Ok_inj in E. subst. exists []. by split; [constructor|].
  - destruct (body x) as [found|] eqn:Ex; [rewrite bind_Ok|done].
    destruct (for_each body l) as [rest|] eqn:El; [rewrite bind_Ok|done].
    intros E. apply Ok_inj in E. subst.
    destruct (IH rest eq_refl) as (fs & Hfs & ->).
    exists (found :: fs). by split; [constructor|].
Qed.

Lemma elem_of_unique (l : list cell) (x : cell) : x ∈ unique l ↔ x ∈ l.
Proof.
  induction l as [|y l IH]; simpl; [done|].
  rewrite !elem_of_cons, list_elem_of_filter, IH.
  destruct (decide (x = y)); tauto.
Qed.

Lemma NoDup_unique (l : list cell) : NoDup (unique l).
Proof.
  induction l as [|y l IH]; simpl; constructor.
  - rewrite list_elem_of_filter. tauto.
  - by apply NoDup_filter.
Qed.

(** C6.  What the overlap rule returns is what its contract finds: the
    task rows with phase and both dates present are grouped by phase,
    one group for each phase that occurs, each group is a rearrangement
    of the rows of its phase in ascending order of start date, and the
    alerts are what the overlap test gives on each pair of neighbours of
    a group, and on no other pair.  On a pair of dated and
    named rows the test gives one info alert naming both when the earlier
    row ends strictly after the later one starts, and nothing otherwise.
    On [TaskA: Jan1–Jan10, TaskB: Jan5–Jan15] in one phase the rule gives
    exactly one info alert, naming TaskA and TaskB. *)
Theorem overlap_rule_checks_neighbours (df : DataFrame) :
  (∀ alerts, _check_overlapping_tasks df = Ok alerts →
             overlapping_neighbours df alerts) ∧
  (∀ (earlier later : nat * Series) (e s : Z) (name next_name : cell),
     earlier.2 !! "end_date" = Some (Timestamp e) →
     later.2 !! "start_date" = Some (Timestamp s) →
     earlier.2 !! "task_name" = Some name →
     later.2 !! "task_name" = Some next_name →
     overlap_alert earlier later
       = Ok (if decide (s < e) then
               [mkAlert (py "info")
                  (py "Chevauchement: " ++ py_str name ++ py " et " ++
                   py_str next_name) (Some earlier.1)]
             else [])) ∧
  _check_overlapping_tasks frame_A_B
    = Ok [mkAlert (py "info") (py "Chevauchement: TaskA et TaskB")
            (Some 0%nat)].
Proof.
  split; [|split; [apply overlap_alert_dated|apply overlapping_tasks_A_B]].
  intros alerts. unfold _check_overlapping_tasks, overlapping_neighbours.
  destruct (tasks_of df) as [tasks|] eqn:Ht; [rewrite bind_Ok|done].
  destruct (dropna _ _ tasks) as [kept|] eqn:Hk; [rewrite bind_Ok|done].
  rewrite <- (kept_phased_tasks df tasks kept Ht Hk). intros E.
  apply (for_each_bind_inv
           (λ phase_,
              sort_values "start_date"
                (filter (λ ir : nat * Series, get ir.2 "phase" = phase_)
                   kept))
           (λ phase_tasks : list (nat * Series),
              for_each (λ i,
                match phase_tasks !! i, phase_tasks !! (i + 1)%nat with
                | Some current, Some next_task =>
                    overlap_alert current next_task
                | _, _ => Raise IndexError
                end) (seq 0 (length phase_tasks - 1)))) in E.
  destruct E as (groups & Hgroups & E).
  apply for_each_findings in E as (per_group & Hfound & ->).
  exists (unique ((λ ir : nat * Series, get ir.2 "phase") <$> kept)),
    groups, per_group.
  split; [apply NoDup_unique|]. split; [|split; [|split; [|done]]].
  - intros p. rewrite elem_of_unique, list_elem_of_fmap. split.
    + intros (ir & -> & Hir). by exists ir.
    + intros (ir & Hir & <-). by exists ir.
  - eapply Forall2_impl; [exact Hgroups|]. intros phase_ group Hsort.
    by apply sort_values_sorted.
  - eapply Forall2_impl; [exact Hfound|]. intros group found.
    intros Hpairs. cbv beta in Hpairs.
    rewrite index_loop_adjacent_pairs in Hpairs.
    apply for_each_findings in Hpairs as (per_pair & Hper & ->).
    exists per_pair. split; [|done].
    eapply Forall2_impl; [exact Hper|]. by intros [earlier later] f.
Qed.

End OverlapTheorems.

(** ** The summary *)

Lemma summary_fold (alerts : list Alert) : ∀ (m : gmap pystr nat) (s : pystr),
  foldl (λ summary alert,
           <[severity alert :=
               (default 0 (summary !! severity alert) + 1)%nat]> summary)
        m alerts !! s
  = match count s alerts with
    | O => m !! s
    | S n => Some (default 0 (m !! s) + S n)%nat
    end.
Proof.
  unfold count.
  induction alerts as [|a l IH]; intros m s; [reflexivity|].
  cbn [foldl]. rewrite IH, filter_cons.
  destruct (decide (severity a = s)) as [->|Hne]; simpl.
  - rewrite lookup_insert_eq. simpl.
    destruct (length _); f_equal; lia.
  - by rewrite lookup_insert_ne.
Qed.

(** Away from the key "total" the summary counts: every severity that
    occurs has its count, known or not. *)
Lemma get_summary_count (alerts : list Alert) (s : pystr) :
  s ≠ py "total" → (0 < count s alerts)%nat →
  get_summary alerts !! s = Some (count s alerts).
Proof.
  intros Hs Hpos. unfold get_summary. rewrite summary_fold.
  destruct (count s alerts) as [|n] eqn:E; [lia|]. f_equal.
  destruct (decide (s = py "error")) as [->|?]; [reflexivity|].
  destruct (decide (s = py "warning")) as [->|?]; [reflexivity|].
  destruct (decide (s = py "info")) as [->|?]; [reflexivity|].
  rewrite !lookup_insert_ne, lookup_singleton_ne by done. reflexivity.
Qed.

(** The entry "total" starts at the length of the list and is then
    counted up by every alert whose severity is the string "total". *)
Lemma get_summary_total (alerts : list Alert) :
  get_summary alerts !! py "total"
  = Some (length alerts + count (py "total") alerts)%nat.
Proof.
  unfold get_summary. rewrite summary_fold.
  destruct (count (py "total") alerts) as [|n] eqn:E.
  - rewrite Nat.add_0_r. reflexivity.
  - reflexivity.
Qed.

(** C7.  On the list of the specification the summary is as stated, and an
    alert of an unknown severity is counted under its own key; but one
    alert whose severity is the string "total" is counted into the entry
    that holds the length of the list, which then reads 2 for a list of
    one alert. *)
Theorem get_summary_total_collision :
  get_summary (alert_of <$> ["error"; "error"; "warning"; "info"; "info"; "info"])
    = {[ py "error" := 2%nat; py "warning" := 1%nat; py "info" := 3%nat;
         py "total" := 6%nat ]} ∧
  get_summary [alert_of "critical"]
    = {[ py "error" := 0%nat; py "warning" := 0%nat; py "info" := 0%nat;
         py "total" := 1%nat; py "critical" := 1%nat ]} ∧
  length [alert_of "total"] = 1%nat ∧
  get_summary [alert_of "total"]
    = {[ py "error" := 0%nat; py "warning" := 0%nat; py "info" := 0%nat;
         py "total" := 2%nat ]}.
Proof. repeat split; reflexivity. Qed.


(** The rule on that frame: nothing for the row off by one, a warning
    for each of the other two. *)
Example duration_coherence_five_days :
  _check_duration_coherence frame_five_days
  = Ok [ mkAlert (py "warning")
           (py "Incohérence durée: Semelles (calculé: 5j, indiqué: 3j)")
           (Some 1%nat);
         mkAlert (py "warning")
           (py "Incohérence durée: Longrines (calculé: 5j, indiqué: 7j)")
           (Some 2%nat) ].
Proof. vm_compute. reflexivity. Qed.

(** A task from 1901 to 2250: the two dates are timestamps that pandas
    holds, their difference is not, and the rule raises. *)
Example duration_coherence_long_task :
  _check_duration_coherence frame_long_task
  = Raise (OutOfBoundsDatetime
             (py "Result is too large for pandas.Timedelta")).
Proof. reflexivity. Qed.

(** C5 as stated fails: the same frame, validated on January 3 and on
    January 20, gives two different alert lists, because TaskB starts on
    January 5 with progress 50. *)
Lemma validate_depends_on_the_day :
  validate (jan_ns 3) frame_A_B ≠ validate (jan_ns 20) frame_A_B.
Proof. vm_compute. discriminate. Qed.

Lemma validate_fixed_rule_order_witness :
  validate (jan_ns 20) frame_A_B =
    (missing_dates ← _check_missing_dates frame_A_B;
     duration ← _check_duration_coherence frame_A_B;
     progress ← _check_progress_range frame_A_B;
     date_order ← _check_date_order frame_A_B;
     orphans ← _check_orphan_tasks frame_A_B;
     overlaps ← _check_overlapping_tasks frame_A_B;
     missing_values ← _check_missing_values frame_A_B;
     future ← _check_future_progress (jan_ns 20) frame_A_B;
     Ok (missing_dates ++ duration ++ progress ++ date_order ++ orphans ++
         overlaps ++ missing_values ++ future)) ∧
  validate (jan_ns 20) frame_A_B = validate (jan_ns 25) frame_A_B.
Proof.
  destruct (validate_fixed_rule_order (jan_ns 20) frame_A_B) as [Horder Hday].
  split; [exact Horder|]. apply Hday.
  repeat apply Forall_cons_2; try apply Forall_nil_2;
    intros s Hs; vm_compute in Hs; injection Hs as <-;
    vm_compute; split; discriminate.
Defined.

Lemma overlap_rule_checks_neighbours_witness :
  overlapping_neighbours frame_A_B
    [mkAlert (py "info") (py "Chevauchement: TaskA et TaskB") (Some 0%nat)] ∧
  overlap_alert (0%nat, task_A) (1%nat, task_B)
    = Ok [mkAlert (py "info") (py "Chevauchement: TaskA et TaskB")
            (Some 0%nat)] ∧
  _check_overlapping_tasks frame_A_B
    = Ok [mkAlert (py "info") (py "Chevauchement: TaskA et TaskB")
            (Some 0%nat)].
Proof.
  destruct (overlap_rule_checks_neighbours frame_A_B) as (Hrule & Hpair & Hex).
  split; [exact (Hrule _ Hex)|]. split; [|exact Hex].
  rewrite (Hpair (0%nat, task_A) (1%nat, task_B) (jan_ns 10) (jan_ns 5)
             (Str (py "TaskA")) (Str (py "TaskB")));
    vm_compute; reflexivity.
Defined.

(** TaskA runs over TaskC, but TaskB sorts between them: only the pair of
    TaskA and TaskB is reported. *)
Example overlap_rule_skips_distant_pairs :
  _check_overlapping_tasks frame_nested
  = Ok [mkAlert (py "info") (py "Chevauchement: TaskA et TaskB") (Some 0%nat)].
Proof. vm_compute. reflexivity. Qed.

Lemma parse_excel_without_duration_raises_witness :
  _clean_data (detected frame_no_duration) = Raise (KeyError "duration") ∧
  (parse_excel frame_no_duration
     = Raise (Exception (py "Erreur parsing: 'duration'")) ∨
   parse_excel frame_no_duration
     = Raise (Exception (py "Erreur parsing: string index out of range"))).
Proof.
  assert (Hs : "start" ∈ columns frame_no_duration)
    by (apply (bool_decide_unpack _); vm_compute; exact I).
  assert (He : "end" ∈ columns frame_no_duration)
    by (apply (bool_decide_unpack _); vm_compute; exact I).
  assert (Hd : "duration" ∉ columns frame_no_duration)
    by (apply (bool_decide_unpack _); vm_compute; exact I).
  destruct (parse_excel_without_duration_raises frame_no_duration Hs He Hd)
    as [Hclean Hparse].
  split; [|exact Hparse]. apply Hclean. vm_compute. reflexivity.
Defined.

(** On that sheet it is the back-fill that raises. *)
Example parse_excel_no_duration :
  parse_excel frame_no_duration
  = Raise (Exception (py "Erreur parsing: 'duration'")).
Proof. vm_compute. reflexivity. Qed.

(** On a sheet with a task from 1901 to 2250 and no duration it is the
    difference of the two dates, taken for the back-fill, that raises. *)
Example parse_excel_long_span :
  parse_excel frame_long_span
  = Raise (Exception (py "Erreur parsing: Overflow in int64 addition")).
Proof. vm_compute. reflexivity. Qed.

(** * More of the parser *)

Section ParserExtras.
Context `{Unicode} `{Pandas}.

Lemma Forall_false_or_Exists_true {A : Type} (f : A → bool) (l : list A) :
  Forall (λ x, f x = false) l ∨ Exists (λ x, f x = true) l.
Proof.
  induction l as [|a l IH]; [left; constructor|].
  destruct (f a) eqn:E; [right; by left|].
  destruct IH; [left; by constructor|right; by right].
Qed.

Lemma blank_text_init_row (r : Series) :
  blank_text (init_row r) = blank_text r.
Proof. unfold blank_text. by rewrite init_row_other. Qed.

Lemma classify_returns (b p : cell) (row : Series) :
  (∃ res, classify b p row = Ok res) ↔ blank_text row = false.
Proof.
  unfold classify, blank_text, index.
  destruct (row !! "task") as [t|]; [|by split; eauto].
  destruct (notna t); [|by split; eauto].
  rewrite andb_true_l.
  destruct (strip (py_str t)) as [|c0 s] eqn:Es.
  - split; [intros [res E]; discriminate E|].
    intros E. by apply bool_decide_eq_false_1 in E.
  - split; [intros _; by apply bool_decide_eq_false_2|intros _].
    cbn [lookup list_lookup]. repeat case_match; eauto.
Qed.

Lemma detect_loop_returns (rs : list Series) : ∀ b p,
  (∃ out, detect_loop b p rs = Ok out)
  ↔ Forall (λ r, blank_text r = false) rs.
Proof.
  induction rs as [|row rest IH]; intros b p; simpl.
  - split; [constructor|eauto].
  - rewrite Forall_cons. rewrite <- (classify_returns b p row). split.
    + intros [out E].
      destruct (classify b p row) as [[row' [b' p']]|] eqn:Ec; [|done].
      split; [eauto|]. apply (IH b' p'). simpl in E.
      destruct (detect_loop b' p' rest); [eauto|done].
    + intros [[[row' [b' p']] Ec] Hrest]. rewrite Ec. simpl.
      apply (IH b' p') in Hrest as [out' ->]. simpl. eauto.
Qed.

Lemma detect_structure_returns (df : DataFrame) :
  (∃ out, _detect_structure df = Ok out)
  ↔ Forall (λ r, blank_text r = false) (rows df).
Proof.
  unfold _detect_structure. rewrite rows_init_structure.
  transitivity
    (∃ out', detect_loop PyNone PyNone (init_row <$> rows df) = Ok out').
  - split.
    + intros [out E]. destruct (detect_loop _ _ _); [eauto|done].
    + intros [out' ->]. simpl. eauto.
  - rewrite detect_loop_returns, Forall_fmap. apply Forall_iff.
    intros r. simpl. by rewrite blank_text_init_row.
Qed.

(** X1.  The detector returns exactly when no row has a text that is
    present and blank once stripped; when it raises, it raises
    [IndexError]. *)
Theorem detect_returns_iff (df : DataFrame) :
  ((∃ out, _detect_structure df = Ok out)
   ↔ Forall (λ r, blank_text r = false) (rows df)) ∧
  (_detect_structure df = Raise IndexError
   ↔ Exists (λ r, blank_text r = true) (rows df)).
Proof.
  pose proof (detect_structure_returns df) as Hret.
  split; [exact Hret|]. split.
  - intros E.
    destruct (Forall_false_or_Exists_true blank_text (rows df))
      as [Hall|Hex]; [|done].
    apply Hret in Hall as [out Hout]. congruence.
  - intros Hex. destruct (_detect_structure df) as [out|e] eqn:E.
    + assert (Hall : Forall (λ r, blank_text r = false) (rows df))
        by (apply Hret; eauto).
      apply Exists_exists in Hex as (r & Hin & Hr).
      rewrite Forall_forall in Hall. specialize (Hall r Hin). congruence.
    + by apply detect_structure_raises in E as ->.
Qed.

Lemma detect_loop_same_init (rs : list Series) : ∀ b p out,
  detect_loop b p rs = Ok out →
  Forall2 (λ r r', init_row r' = init_row r) rs out.
Proof.
  induction rs as [|row rest IH]; intros b p out E.
  - inversion E. constructor.
  - apply detect_loop_cons_Ok in E as (row' & b' & p' & out' & Hc & Hl & ->).
    constructor; [by eapply classified_init_row|by eapply IH].
Qed.

(** X2.  The detector keeps the frame: as many rows as it was given, in
    the same order, each with its cells unchanged in every column but
    level, bloc and phase, and the columns it was given plus these
    three. *)
Theorem detect_keeps_other_columns (df out : DataFrame) :
  _detect_structure df = Ok out →
  columns out = {["phase"]} ∪ ({["bloc"]} ∪ ({["level"]} ∪ columns df)) ∧
  Forall2 same_outside_hierarchy (rows df) (rows out).
Proof.
  intros E. split; [by apply columns_detect_structure|].
  revert E. unfold _detect_structure. rewrite rows_init_structure.
  destruct (detect_loop _ _ _) as [rows'|] eqn:El; [|done].
  simpl. intros [= <-]. simpl.
  apply detect_loop_same_init in El. apply Forall2_fmap_l in El.
  eapply Forall2_impl; [exact El|]. simpl.
  intros r r' Hinit c ? ? ?. rewrite init_row_idemp in Hinit.
  rewrite <- (init_row_other r' c), <- (init_row_other r c) by done.
  by rewrite Hinit.
Qed.

Lemma classify_level (b p : cell) (row row' : Series) (st : cell * cell) :
  classify b p row = Ok (row', st) → row !! "level" = Some tache →
  row' !! "level" = Some (level_of row).
Proof.
  unfold classify, level_of. intros E Hl.
  destruct (row !! "task") as [t|]; [|by simplify_eq].
  destruct (notna t); [|by simplify_eq].
  destruct (isupper (strip (py_str t)) && isna (get row "start"));
    [simplify_eq; by simplify_map_eq|].
  destruct (index (strip (py_str t)) 0) as [c0|]; [|done].
  cbn [from_option].
  destruct ((isdigit_c c0 || startswith (strip (py_str t)) (py "-"))
            && isna (get row "start"));
    simplify_eq; by simplify_map_eq.
Qed.

Lemma level_of_init_row (r : Series) : level_of (init_row r) = level_of r.
Proof.
  unfold level_of, get. by rewrite !init_row_other.
Qed.

Lemma detect_loop_level (rs : list Series) : ∀ b p out,
  detect_loop b p rs = Ok out →
  Forall (λ r : Series, r !! "level" = Some tache) rs →
  Forall2 (λ r r' : Series, r' !! "level" = Some (level_of r)) rs out.
Proof.
  induction rs as [|row rest IH]; intros b p out E Hf.
  - inversion E. constructor.
  - apply Forall_cons in Hf as [Hrow Hrest]. simpl in E.
    destruct (classify b p row) as [[row' [b' p']]|] eqn:Ec; [|done].
    simpl in E. destruct (detect_loop b' p' rest) as [out'|] eqn:El; [|done].
    simpl in E. injection E as <-.
    constructor; [by eapply classify_level|by eapply IH].
Qed.

(** X3.  The level that the detector gives a row depends on that row
    alone, on its text and its start cell: bloc when the text is upper
    case and there is no start date, else phase when the text begins with
    a digit or a dash and there is no start date, else tache; a row
    without text is a tache. *)
Theorem detect_level_is_local (df out : DataFrame) :
  _detect_structure df = Ok out →
  Forall2 (λ r r' : Series, r' !! "level" = Some (level_of r))
    (rows df) (rows out).
Proof.
  unfold _detect_structure. rewrite rows_init_structure.
  destruct (detect_loop _ _ _) as [rows'|] eqn:El; [|done].
  simpl. intros [= <-]. simpl.
  apply detect_loop_level in El.
  - apply Forall2_fmap_l in El. eapply Forall2_impl; [exact El|].
    simpl. intros r r' ->. by rewrite level_of_init_row.
  - apply Forall_fmap, Forall_true. intros r. apply init_row_level.
Qed.

Lemma detect_loop_take (rs : list Series) : ∀ b p out n,
  detect_loop b p rs = Ok out →
  detect_loop b p (take n rs) = Ok (take n out).
Proof.
  induction rs as [|row rest IH]; intros b p out n E.
  - inversion E. by destruct n.
  - destruct n as [|n]; [reflexivity|]. simpl in *.
    destruct (classify b p row) as [[row' [b' p']]|] eqn:Ec; [|done].
    simpl in *. destruct (detect_loop b' p' rest) as [out'|] eqn:El; [|done].
    simpl in E. injection E as <-.
    by rewrite (IH b' p' out' n El).
Qed.

(** X4.  No lookahead: what the detector writes in a row does not depend
    on the rows after it.  On the first [n] rows of a frame the detector
    returns the first [n] rows of what it returns on the whole frame. *)
Theorem detect_head (df out : DataFrame) (n : nat) :
  _detect_structure df = Ok out →
  _detect_structure (head n df) = Ok (head n out).
Proof.
  unfold _detect_structure. rewrite !rows_init_structure.
  destruct (detect_loop _ _ (init_row <$> rows df)) as [rows'|] eqn:El;
    [|done].
  simpl. intros [= <-]. rewrite fmap_take.
  by rewrite (detect_loop_take _ _ _ _ n El).
Qed.

End ParserExtras.

(** * More of the normaliser *)

Section CleaningExtras.
Context `{Unicode} `{Pandas}.

Lemma bind_ext {A B : Type} (m : result A) (f g : A → result B) :
  (∀ a, f a = g a) → (m ≫= f) = (m ≫= g).
Proof. intros Hfg. destruct m; [apply Hfg|reflexivity]. Qed.

Lemma clean_data_steps (df : DataFrame) :
  _clean_data df =
    let dated := coerce_date "end" (coerce_date "start" df) in
    if decide ("start" ∈ columns df ∧ "end" ∈ columns df) then
      if decide ("duration" ∈ columns df) then
        filled ← backfill_durations dated;
        Ok (final_names (numeric_value (numeric_progress filled)))
      else Raise (KeyError "duration")
    else Ok (final_names (numeric_value (numeric_progress dated))).
Proof.
  unfold _clean_data. cbv zeta.
  set (dated := coerce_date "end" (coerce_date "start" df)).
  assert (Hc : columns dated = columns df)
    by (unfold dated; by rewrite !columns_coerce_date).
  destruct (decide ("start" ∈ columns dated ∧ "end" ∈ columns dated))
    as [Hse|Hse]; rewrite Hc in Hse;
    destruct (decide ("start" ∈ columns df ∧ "end" ∈ columns df));
    [|done|done|].
  - destruct (decide ("duration" ∈ columns dated)) as [Hd|Hd];
      rewrite Hc in Hd;
      destruct (decide ("duration" ∈ columns df)); [|done|done|reflexivity].
    unfold backfill_durations. apply bind_ext. intros filled.
    unfold final_names, numeric_value, numeric_progress.
    reflexivity.
  - rewrite bind_Ok. unfold final_names, numeric_value, numeric_progress.
    reflexivity.
Qed.

Lemma map_rows_Forall2 (f : Series → result Series) (l : list Series) :
  ∀ out, map_rows f l = Ok out → Forall2 (λ r r', f r = Ok r') l out.
Proof.
  induction l as [|r l IH]; intros out; simpl.
  - intros E. apply Ok_inj in E. subst. constructor.
  - destruct (f r) as [r'|] eqn:Er; [rewrite bind_Ok|done].
    destruct (map_rows f l) as [rest|] eqn:El; [rewrite bind_Ok|done].
    intros E. apply Ok_inj in E. subst. constructor; [done|by apply IH].
Qed.

Lemma map_rows_returns (f : Series → result Series) (l : list Series) :
  (∃ out, map_rows f l = Ok out) ↔ Forall (λ r, ∃ r', f r = Ok r') l.
Proof.
  induction l as [|r l IH]; simpl.
  - split; [constructor|eauto].
  - rewrite Forall_cons, <- IH. split.
    + intros [out E].
      destruct (f r) as [r'|]; [rewrite bind_Ok in E|done].
      destruct (map_rows f l) as [rest|]; [|done]. eauto.
    + intros [[r' ->] [rest ->]]. rewrite !bind_Ok. eauto.
Qed.

Lemma zip_with_insert (c : string) (P : cell → Prop) (l : list Series) :
  ∀ vs, length vs = length l → Forall P vs →
  Forall2 (λ r r' : Series, ∃ v, P v ∧ r' = <[c := v]> r) l
    (zip_with (λ r v, <[c := v]> r) l vs).
Proof.
  induction l as [|r l IH]; intros [|v vs] Hlen HP; simplify_eq/=;
    [constructor|].
  apply Forall_cons in HP as [Hv Hvs]. constructor; eauto.
Qed.

Lemma set_column_rows (c : string) (P : cell → Prop) vs (df : DataFrame) :
  length vs = length (rows df) → Forall P vs →
  Forall2 (λ r r' : Series, ∃ v, P v ∧ r' = <[c := v]> r)
    (rows df) (rows (set_column c vs df)).
Proof. intros. by apply zip_with_insert. Qed.

Lemma Forall2_same (R : Series → Series → Prop) (l : list Series) :
  (∀ r, R r r) → Forall2 R l l.
Proof. intros HR. induction l; constructor; auto. Qed.

Lemma coerce_date_rows (c : string) (df : DataFrame) :
  Forall2 (λ r r' : Series,
             if decide (c ∈ columns df) then
               ∃ v, date_or_na v = true ∧ r' = <[c := v]> r
             else r' = r)
    (rows df) (rows (coerce_date c df)).
Proof.
  unfold coerce_date. case_decide; [|by apply Forall2_same].
  apply set_column_rows.
  - unfold column. by rewrite length_fmap, to_datetime_length, length_fmap.
  - apply Forall_fmap, Forall_true. by intros [ns|].
Qed.

Lemma numeric_progress_rows (df : DataFrame) :
  Forall2 (λ r r' : Series, ∀ k, k ≠ "progress" → same_at k r r')
    (rows df) (rows (numeric_progress df)).
Proof.
  unfold numeric_progress. case_decide; [|by apply Forall2_same].
  eapply Forall2_impl.
  - apply (set_column_rows _ (λ _, True)); [|by apply Forall_true].
    unfold column. by rewrite to_numeric_length, !length_fmap.
  - intros r r' (v & _ & ->) k Hk. unfold same_at. by rewrite lookup_insert_ne.
Qed.

Lemma numeric_value_rows (df : DataFrame) :
  Forall2 (λ r r' : Series, ∀ k, k ≠ "value" → same_at k r r')
    (rows df) (rows (numeric_value df)).
Proof.
  unfold numeric_value. case_decide; [|by apply Forall2_same].
  eapply Forall2_impl.
  - apply (set_column_rows _ (λ _, True)); [|by apply Forall_true].
    unfold column. by rewrite to_numeric_length, length_fmap.
  - intros r r' (v & _ & ->) k Hk. unfold same_at. by rewrite lookup_insert_ne.
Qed.

(** What the back-fill returns for one row, when it returns. *)
Lemma backfill_duration_inv (r r3 : Series) :
  backfill_duration r = Ok r3 →
  if isna (get r "duration") then
    ∃ d, dt_days (get r "start") (get r "end") = Ok d ∧
         r3 = <["duration" := d]> r
  else r3 = r.
Proof.
  unfold backfill_duration. destruct (isna (get r "duration")).
  - destruct (dt_days _ _) as [d|]; [rewrite bind_Ok|done].
    intros E. apply Ok_inj in E. eauto.
  - intros E. by apply Ok_inj in E.
Qed.

Lemma backfill_other (r r3 : Series) (k : string) :
  backfill_duration r = Ok r3 → k ≠ "duration" → r3 !! k = r !! k.
Proof.
  intros E%backfill_duration_inv Hk.
  destruct (isna (get r "duration")); [|by subst].
  destruct E as (d & _ & ->). by rewrite lookup_insert_ne.
Qed.

Lemma backfilled_other (P : Prop) `{Decision P} (r2 r3 : Series) k :
  (if decide P then backfill_duration r2 = Ok r3 else r3 = r2) →
  k ≠ "duration" → r3 !! k = r2 !! k.
Proof. case_decide; [apply backfill_other|by intros ->]. Qed.

Lemma rename_rows (old new : string) (df : DataFrame) :
  Forall2 (λ r r' : Series,
             (∀ k, k ≠ old → k ≠ new → same_at k r r') ∧
             (old ∈ columns df → old ≠ new →
                r' !! new = Some (get r old) ∧ r' !! old = None))
    (rows df) (rows (rename old new df)).
Proof.
  unfold rename. case_decide.
  - simpl. apply Forall2_fmap_r, Forall2_same. intros r.
    unfold compose, same_at. cbv beta. split.
    + intros k ? ?. by rewrite lookup_insert_ne, lookup_delete_ne.
    + intros _ ?. rewrite lookup_insert_eq.
      by rewrite lookup_insert_ne, lookup_delete_eq.
  - apply Forall2_same. intros r. split; [done|tauto].
Qed.

Lemma Forall2_compose {A B C : Type} (P : A → B → Prop) (Q : B → C → Prop)
  (l : list A) (k : list B) (m : list C) :
  Forall2 P l k → Forall2 Q k m → Forall2 (λ x z, ∃ y, P x y ∧ Q y z) l m.
Proof.
  intros HP. revert m. induction HP; intros m HQ; inversion HQ; subst;
    constructor; eauto.
Qed.

Lemma columns_numeric_progress (df : DataFrame) :
  columns (numeric_progress df) = columns df.
Proof.
  unfold numeric_progress. case_decide; [|reflexivity]. simpl.
  apply set_eq. intros x. set_unfold. split; [intros [->|?]|]; auto.
Qed.

Lemma columns_numeric_value (df : DataFrame) :
  columns (numeric_value df) = columns df.
Proof.
  unfold numeric_value. case_decide; [|reflexivity]. simpl.
  apply set_eq. intros x. set_unfold. split; [intros [->|?]|]; auto.
Qed.

Lemma elem_of_columns_rename (c old new : string) (df : DataFrame) :
  c ≠ old → c ≠ new →
  c ∈ columns (rename old new df) ↔ c ∈ columns df.
Proof.
  intros. unfold rename. case_decide; [|reflexivity]. simpl.
  set_unfold. tauto.
Qed.

Lemma rows_rename (old new : string) (df : DataFrame) :
  rows (rename old new df)
  = renamed (bool_decide (old ∈ columns df)) old new <$> rows df.
Proof.
  unfold rename, renamed. case_bool_decide.
  - by rewrite decide_True.
  - rewrite decide_False by done. by rewrite list_fmap_id.
Qed.

Lemma rows_final_names (df : DataFrame) :
  rows (final_names df)
  = (λ r, renamed (bool_decide ("end" ∈ columns df)) "end" "end_date"
            (renamed (bool_decide ("start" ∈ columns df)) "start" "start_date"
               (renamed (bool_decide ("task" ∈ columns df)) "task" "task_name"
                  r))) <$> rows df.
Proof.
  unfold final_names. rewrite !rows_rename, <- !list_fmap_compose.
  rewrite (bool_decide_ext _ ("end" ∈ columns df)).
  2:{ by rewrite !elem_of_columns_rename. }
  rewrite (bool_decide_ext
             ("start" ∈ columns (rename "task" "task_name" df))
             ("start" ∈ columns df)).
  2:{ by rewrite !elem_of_columns_rename. }
  reflexivity.
Qed.

Lemma backfill_durations_inv (df filled : DataFrame) :
  backfill_durations df = Ok filled →
  columns filled = columns df ∧
  Forall2 (λ r r3, backfill_duration r = Ok r3) (rows df) (rows filled).
Proof.
  unfold backfill_durations.
  destruct (map_rows backfill_duration (rows df)) as [rows'|] eqn:Ef;
    [rewrite bind_Ok|done].
  intros E. apply Ok_inj in E. subst filled. split; [done|].
  by apply map_rows_Forall2.
Qed.

Lemma dated_rows (df : DataFrame) :
  Forall2 (λ r r2 : Series, ∃ r1 : Series,
    (if decide ("start" ∈ columns df) then
       ∃ v, date_or_na v = true ∧ r1 = <["start" := v]> r
     else r1 = r) ∧
    (if decide ("end" ∈ columns df) then
       ∃ v, date_or_na v = true ∧ r2 = <["end" := v]> r1
     else r2 = r1))
    (rows df) (rows (coerce_date "end" (coerce_date "start" df))).
Proof.
  pose proof (coerce_date_rows "start" df) as H1.
  pose proof (coerce_date_rows "end" (coerce_date "start" df)) as H2.
  rewrite columns_coerce_date in H2.
  exact (Forall2_compose _ _ _ _ _ H1 H2).
Qed.

Lemma numeric_rows (df d3 : DataFrame) :
  columns d3 = columns df →
  Forall2 (row_dated df) (rows df) (rows d3) →
  Forall2 (row_cleaned df) (rows df)
    (rows (final_names (numeric_value (numeric_progress d3)))).
Proof.
  intros Hc3 H3.
  pose proof (numeric_progress_rows d3) as H4.
  pose proof (numeric_value_rows (numeric_progress d3)) as H5.
  pose proof (Forall2_compose _ _ _ _ _ H4 H5) as H45.
  pose proof (Forall2_compose _ _ _ _ _ H3 H45) as H345.
  rewrite rows_final_names, columns_numeric_value,
    columns_numeric_progress, Hc3.
  apply Forall2_fmap_r. eapply Forall2_impl; [exact H345|].
  intros r r4 (r3 & (r1 & r2 & Hr1 & Hr2 & Hr3) & (r3' & Hp & Hv)).
  exists r1, r2, r3, r4. repeat split; try done.
  intros k Hkp Hkv. unfold same_at in *.
  by rewrite (Hv k Hkv), (Hp k Hkp).
Qed.

(** Row by row, what [_clean_data] returns. *)
Lemma clean_data_rows (df out : DataFrame) :
  _clean_data df = Ok out → Forall2 (row_cleaned df) (rows df) (rows out).
Proof.
  rewrite clean_data_steps. cbv zeta.
  destruct (decide ("start" ∈ columns df ∧ "end" ∈ columns df)) as [Hse|Hse].
  - destruct (decide ("duration" ∈ columns df)); [|discriminate].
    destruct (backfill_durations _) as [filled|] eqn:Ef;
      [rewrite bind_Ok|discriminate].
    intros E. apply Ok_inj in E. subst out.
    apply backfill_durations_inv in Ef as [Hc Hfilled].
    rewrite !columns_coerce_date in Hc.
    apply numeric_rows; [exact Hc|].
    pose proof (Forall2_compose _ _ _ _ _ (dated_rows df) Hfilled) as H123.
    eapply Forall2_impl; [exact H123|].
    intros r r3 (r2 & (r1 & Hr1 & Hr2) & Hr3). exists r1, r2.
    split; [done|split; [done|]]. by rewrite decide_True.
  - intros E. apply Ok_inj in E. subst out.
    apply numeric_rows; [by rewrite !columns_coerce_date|].
    eapply Forall2_impl; [exact (dated_rows df)|].
    intros r r2 (r1 & Hr1 & Hr2). exists r1, r2.
    split; [done|split; [done|]]. by rewrite decide_False.
Qed.

Lemma renamed_other (present : bool) (old new : string) (r : Series) k :
  k ≠ old → k ≠ new → renamed present old new r !! k = r !! k.
Proof.
  intros. unfold renamed. destruct present; [|done].
  by rewrite lookup_insert_ne, lookup_delete_ne.
Qed.

Lemma renamed_new (old new : string) (r : Series) :
  renamed true old new r !! new = Some (get r old).
Proof. unfold renamed. by rewrite lookup_insert_eq. Qed.

Lemma renamed_old (old new : string) (r : Series) :
  old ≠ new → renamed true old new r !! old = None.
Proof.
  intros. unfold renamed. by rewrite lookup_insert_ne, lookup_delete_eq.
Qed.

Lemma coerced_other (P : Prop) `{Decision P} (c : string) (r r1 : Series) k :
  (if decide P then ∃ v, date_or_na v = true ∧ r1 = <[c := v]> r
   else r1 = r) →
  k ≠ c → r1 !! k = r !! k.
Proof.
  case_decide; [|by intros ->]. intros (v & _ & ->) ?.
  by rewrite lookup_insert_ne.
Qed.

Lemma coerced_same (P : Prop) `{Decision P} (c : string) (r r1 : Series) :
  P →
  (if decide P then ∃ v, date_or_na v = true ∧ r1 = <[c := v]> r
   else r1 = r) →
  ∃ v, date_or_na v = true ∧ r1 !! c = Some v.
Proof.
  intros HP. rewrite decide_True by done. intros (v & Hv & ->).
  exists v. by rewrite lookup_insert_eq.
Qed.

(** X5.  [_clean_data] returns as many rows as it was given, in the same
    order, and leaves every cell alone outside the columns it normalises
    (task, start, end, duration, progress, value) and the three names it
    renames to. *)
Theorem clean_data_keeps_other_columns (df out : DataFrame) :
  _clean_data df = Ok out →
  Forall2 (λ r r' : Series, ∀ k, k ∉ normalised_columns → same_at k r r')
    (rows df) (rows out).
Proof.
  intros E. eapply Forall2_impl; [exact (clean_data_rows df out E)|].
  intros r r' (r1 & r2 & r3 & r4 & Hr1 & Hr2 & Hr3 & Hr4 & ->) k Hk.
  unfold normalised_columns in Hk. rewrite !not_elem_of_cons in Hk.
  destruct Hk as (? & ? & ? & ? & ? & ? & ? & ? & ? & _).
  unfold same_at. rewrite !renamed_other by done. rewrite Hr4 by done.
  rewrite (backfilled_other _ _ _ k Hr3) by done.
  rewrite (coerced_other _ _ _ _ k Hr2) by done.
  by rewrite (coerced_other _ _ _ _ k Hr1).
Qed.

Lemma Forall2_Forall_right {A B : Type} (R : A → B → Prop) (Q : B → Prop)
  (l : list A) (k : list B) :
  (∀ x y, R x y → Q y) → Forall2 R l k → Forall Q k.
Proof. intros HQ HR. induction HR; constructor; eauto. Qed.

Lemma renamed_chain_start (b_task b_end : bool) (r4 : Series) :
  let r' :=
    renamed b_end "end" "end_date"
      (renamed true "start" "start_date"
         (renamed b_task "task" "task_name" r4)) in
  r' !! "start_date" = Some (get r4 "start") ∧ r' !! "start" = None.
Proof.
  cbv zeta. rewrite !(renamed_other b_end) by done.
  rewrite renamed_new, renamed_old by done.
  unfold get. by rewrite renamed_other.
Qed.

Lemma renamed_chain_end (b_task b_start : bool) (r4 : Series) :
  let r' :=
    renamed true "end" "end_date"
      (renamed b_start "start" "start_date"
         (renamed b_task "task" "task_name" r4)) in
  r' !! "end_date" = Some (get r4 "end") ∧ r' !! "end" = None.
Proof.
  cbv zeta. rewrite renamed_new, renamed_old by done.
  unfold get. by rewrite !renamed_other.
Qed.

Lemma row_cleaned_dates (df : DataFrame) (r r1 r2 r3 r4 : Series) :
  (if decide ("start" ∈ columns df) then
     ∃ v, date_or_na v = true ∧ r1 = <["start" := v]> r
   else r1 = r) →
  (if decide ("end" ∈ columns df) then
     ∃ v, date_or_na v = true ∧ r2 = <["end" := v]> r1
   else r2 = r1) →
  (if decide ("start" ∈ columns df ∧ "end" ∈ columns df) then
     backfill_duration r2 = Ok r3
   else r3 = r2) →
  (∀ k, k ≠ "progress" → k ≠ "value" → r4 !! k = r3 !! k) →
  r4 !! "start" = r2 !! "start" ∧ r4 !! "end" = r2 !! "end" ∧
  ("start" ∈ columns df →
     ∃ v, date_or_na v = true ∧ r2 !! "start" = Some v) ∧
  ("end" ∈ columns df →
     ∃ v, date_or_na v = true ∧ r2 !! "end" = Some v).
Proof.
  intros Hr1 Hr2 Hr3 Hr4.
  assert (H4 : ∀ k, k ≠ "progress" → k ≠ "value" → k ≠ "duration" →
                    r4 !! k = r2 !! k).
  { intros k ? ? ?. rewrite Hr4 by done.
    by apply (backfilled_other _ _ _ k Hr3). }
  repeat split; try (by apply H4).
  - intros Hs. destruct (coerced_same _ _ _ _ Hs Hr1) as (v & Hv & E).
    exists v. split; [done|].
    by rewrite (coerced_other _ _ _ _ "start" Hr2).
  - intros He. exact (coerced_same _ _ _ _ He Hr2).
Qed.

(** X6.  When [_clean_data] returns on a frame that had a start column
    and no start_date column, every row of the result holds a timestamp
    or [NaT] under start_date and nothing under start; likewise for end
    and end_date. *)
Theorem clean_data_coerces_dates (df out : DataFrame) :
  _clean_data df = Ok out →
  ("start" ∈ columns df → "start_date" ∉ columns df →
     Forall (λ r' : Series,
               (∃ v, r' !! "start_date" = Some v ∧ date_or_na v = true) ∧
               r' !! "start" = None) (rows out)) ∧
  ("end" ∈ columns df → "end_date" ∉ columns df →
     Forall (λ r' : Series,
               (∃ v, r' !! "end_date" = Some v ∧ date_or_na v = true) ∧
               r' !! "end" = None) (rows out)).
Proof.
  intros E. pose proof (clean_data_rows df out E) as Hrows. split.
  - intros Hs _. eapply Forall2_Forall_right; [|exact Hrows].
    intros r r' (r1 & r2 & r3 & r4 & Hr1 & Hr2 & Hr3 & Hr4 & ->).
    destruct (row_cleaned_dates df r r1 r2 r3 r4 Hr1 Hr2 Hr3 Hr4)
      as (E4s & _ & Hstart & _).
    destruct (Hstart Hs) as (v & Hv & E2).
    rewrite (bool_decide_eq_true_2 _ Hs).
    destruct (renamed_chain_start
                (bool_decide ("task" ∈ columns df))
                (bool_decide ("end" ∈ columns df)) r4) as [-> ->].
    split; [|done]. exists v. unfold get. by rewrite E4s, E2.
  - intros He _. eapply Forall2_Forall_right; [|exact Hrows].
    intros r r' (r1 & r2 & r3 & r4 & Hr1 & Hr2 & Hr3 & Hr4 & ->).
    destruct (row_cleaned_dates df r r1 r2 r3 r4 Hr1 Hr2 Hr3 Hr4)
      as (_ & E4e & _ & Hend).
    destruct (Hend He) as (v & Hv & E2).
    rewrite (bool_decide_eq_true_2 _ He).
    destruct (renamed_chain_end
                (bool_decide ("task" ∈ columns df))
                (bool_decide ("start" ∈ columns df)) r4) as [-> ->].
    split; [|done]. exists v. unfold get. by rewrite E4e, E2.
Qed.

(** X7.  On a frame without start_date and end_date columns,
    [_clean_data] back-fills the duration only where it is null: a
    duration that is present is kept as it is, and where it is null and
    the frame has both date columns the new duration is what
    [(end - start).dt.days] gives for the row's start_date and end_date
    in the result: their whole days when both are timestamps, [NaN] next
    to a [NaT]. *)
Theorem clean_data_backfills_null_durations (df out : DataFrame) :
  "start_date" ∉ columns df → "end_date" ∉ columns df →
  _clean_data df = Ok out →
  Forall2 (λ r r' : Series,
             if isna (get r "duration") then
               "start" ∈ columns df → "end" ∈ columns df →
               ∃ d, dt_days (get r' "start_date") (get r' "end_date")
                    = Ok d ∧
                    r' !! "duration" = Some d
             else r' !! "duration" = r !! "duration")
    (rows df) (rows out).
Proof.
  intros _ _ E. eapply Forall2_impl; [exact (clean_data_rows df out E)|].
  intros r r' (r1 & r2 & r3 & r4 & Hr1 & Hr2 & Hr3 & Hr4 & ->).
  destruct (row_cleaned_dates df r r1 r2 r3 r4 Hr1 Hr2 Hr3 Hr4)
    as (E4s & E4e & _ & _).
  assert (Ed : r2 !! "duration" = r !! "duration").
  { rewrite (coerced_other _ _ _ _ "duration" Hr2) by done.
    by rewrite (coerced_other _ _ _ _ "duration" Hr1). }
  assert (Eg : get r2 "duration" = get r "duration")
    by (unfold get; by rewrite Ed).
  destruct (isna (get r "duration")) eqn:Hna.
  - intros Hs He.
    rewrite (bool_decide_eq_true_2 _ Hs), (bool_decide_eq_true_2 _ He).
    rewrite decide_True in Hr3 by done.
    apply backfill_duration_inv in Hr3. rewrite Eg, Hna in Hr3.
    destruct Hr3 as (d & Hd & ->). exists d.
    unfold get at 1 2.
    destruct (renamed_chain_start (bool_decide ("task" ∈ columns df))
                true r4) as [-> _].
    destruct (renamed_chain_end (bool_decide ("task" ∈ columns df))
                true r4) as [-> _].
    rewrite !renamed_other by done. rewrite Hr4 by done.
    rewrite lookup_insert_eq. split; [|done].
    cbn [from_option id]. unfold get. rewrite E4s, E4e. exact Hd.
  - rewrite !renamed_other by done. rewrite Hr4 by done.
    rewrite <- Ed. case_decide; [|by subst].
    apply backfill_duration_inv in Hr3. rewrite Eg, Hna in Hr3.
    by subst.
Qed.

(** The back-fill of one row returns when the two dates fit, and raises
    when the duration is null and they overflow. *)
Lemma backfill_duration_fits (r : Series) :
  (isna (get r "duration") = true →
   ∀ s e, r !! "start" = Some (Timestamp s) →
          r !! "end" = Some (Timestamp e) → fits e s) →
  ∃ r', backfill_duration r = Ok r'.
Proof.
  intros Hfits. unfold backfill_duration.
  destruct (isna (get r "duration")); [|eauto].
  specialize (Hfits eq_refl). unfold dt_days, get.
  destruct (r !! "start") as [[| | | | |s]|]; cbn [from_option id];
    rewrite ?bind_Ok; eauto.
  destruct (r !! "end") as [[| | | | |e]|]; cbn [from_option id];
    rewrite ?bind_Ok; eauto.
  rewrite (datetime_days_fits e s) by by apply Hfits.
  rewrite bind_Ok. eauto.
Qed.

Lemma backfill_duration_overflows (r : Series) (s e : Z) :
  isna (get r "duration") = true →
  r !! "start" = Some (Timestamp s) → r !! "end" = Some (Timestamp e) →
  overflows e s → ∃ x, backfill_duration r = Raise x.
Proof.
  intros Hna Es Ee Hover. unfold backfill_duration, dt_days, get.
  unfold get in Hna. rewrite Hna, Es, Ee. cbn [from_option id].
  destruct (datetime_days_overflows e s Hover) as [x ->]. eauto.
Qed.

Lemma clean_data_returns (df : DataFrame) :
  (∃ out, _clean_data df = Ok out)
  ↔ ¬ lacks_duration df ∧
    ("start" ∈ columns df ∧ "end" ∈ columns df →
     Forall (λ r, ∃ r', backfill_duration r = Ok r')
       (rows (coerce_date "end" (coerce_date "start" df)))).
Proof.
  rewrite clean_data_steps. cbv zeta. unfold lacks_duration.
  destruct (decide ("start" ∈ columns df ∧ "end" ∈ columns df)) as [Hse|Hse].
  - destruct (decide ("duration" ∈ columns df)) as [Hd|Hd].
    + unfold backfill_durations. rewrite <- map_rows_returns. split.
      * intros [out E]. split; [tauto|]. intros _.
        destruct (map_rows _ _) as [filled|]; [eauto|done].
      * intros [_ Hfill]. destruct (Hfill Hse) as [filled ->].
        rewrite bind_Ok. eauto.
    + split; [by intros [out ?]|tauto].
  - split; [|eauto]. intros _. split; tauto.
Qed.

Lemma lacks_duration_detect (df d : DataFrame) :
  _detect_structure df = Ok d → lacks_duration d ↔ lacks_duration df.
Proof.
  intros E. apply columns_detect_structure in E.
  unfold lacks_duration. rewrite E. set_unfold.
  split; intros (Hs & He & Hd); repeat split.
  - by destruct Hs as [?|[?|[?|?]]].
  - by destruct He as [?|[?|[?|?]]].
  - tauto.
  - tauto.
  - tauto.
  - by intros [?|[?|[?|?]]].
Qed.

Lemma detect_rows_same (df d : DataFrame) :
  _detect_structure df = Ok d →
  Forall2 same_outside_hierarchy (rows df) (rows d).
Proof.
  unfold _detect_structure. rewrite rows_init_structure.
  destruct (detect_loop _ _ _) as [rows'|] eqn:El; [|done].
  simpl. intros E. apply Ok_inj in E. subst d. simpl.
  apply detect_loop_same_init in El. apply Forall2_fmap_l in El.
  eapply Forall2_impl; [exact El|]. simpl.
  intros r r' Hinit c ? ? ?. rewrite init_row_idemp in Hinit.
  rewrite <- (init_row_other r' c), <- (init_row_other r c) by done.
  by rewrite Hinit.
Qed.

Lemma zip_with_same (c : string) (l k : list Series) :
  Forall2 same_outside_hierarchy l k →
  ∀ vs, Forall2 same_outside_hierarchy
          (zip_with (λ r v, <[c := v]> r) l vs)
          (zip_with (λ r v, <[c := v]> r) k vs).
Proof.
  induction 1 as [|r r' l k Hr _ IH]; intros [|v vs]; simpl;
    try constructor; [|apply IH].
  intros c' ? ? ?. destruct (decide (c' = c)) as [->|Hne].
  - by rewrite !lookup_insert_eq.
  - rewrite !lookup_insert_ne by done. by apply Hr.
Qed.

(** The date coercion commutes with what the detector does. *)
Lemma coerce_date_same (c : string) (a b : DataFrame) :
  c ≠ "level" → c ≠ "bloc" → c ≠ "phase" →
  (c ∈ columns b ↔ c ∈ columns a) →
  Forall2 same_outside_hierarchy (rows a) (rows b) →
  Forall2 same_outside_hierarchy
    (rows (coerce_date c a)) (rows (coerce_date c b)).
Proof.
  intros ? ? ? Hcol Hrows. unfold coerce_date.
  destruct (decide (c ∈ columns a)) as [Ha|Ha];
    destruct (decide (c ∈ columns b)) as [Hb|Hb]; try tauto.
  cbn [rows set_column].
  replace (column c b) with (column c a); [by apply zip_with_same|].
  unfold column. apply list_eq_Forall2, Forall2_fmap.
  eapply Forall2_impl; [exact Hrows|]. intros r r' Hr.
  unfold get. by rewrite Hr.
Qed.

Lemma dated_rows_same (df d : DataFrame) :
  _detect_structure df = Ok d →
  Forall2 same_dates
    (rows (coerce_date "end" (coerce_date "start" df)))
    (rows (coerce_date "end" (coerce_date "start" d))).
Proof.
  intros Ed. pose proof (columns_detect_structure df d Ed) as Hcols.
  eapply Forall2_impl.
  - apply coerce_date_same; [done..| |].
    + rewrite !columns_coerce_date, Hcols. set_unfold.
      split; [intros [?|[?|[?|?]]]; done|tauto].
    + apply coerce_date_same; [done..| |by apply detect_rows_same].
      rewrite Hcols. set_unfold.
      split; [intros [?|[?|[?|?]]]; done|tauto].
  - intros r r' Hr. repeat split; by apply Hr.
Qed.

Lemma date_columns_detect (df d : DataFrame) :
  _detect_structure df = Ok d →
  "start" ∈ columns d ∧ "end" ∈ columns d
  ↔ "start" ∈ columns df ∧ "end" ∈ columns df.
Proof.
  intros E. apply columns_detect_structure in E. rewrite E. set_unfold.
  split; intros [Hs He]; split; try tauto.
  - by destruct Hs as [?|[?|[?|?]]].
  - by destruct He as [?|[?|[?|?]]].
Qed.

(** X8.  When [parse_excel] returns and when it does not, from the
    mapped frame on.  If it returns, no text cell is blank once stripped,
    the frame does not have both date columns without a duration column,
    and no row to back-fill has dates whose difference overflows.  It
    does return when no text cell is blank, the duration column is there
    if both date columns are, and in every row to back-fill the
    difference of the dates fits. *)
Theorem parse_excel_returns (df_mapped : DataFrame) :
  ((∃ out, parse_excel df_mapped = Ok out) →
   Forall (λ r, blank_text r = false) (rows df_mapped) ∧
   ¬ lacks_duration df_mapped ∧ ¬ backfill_overflows df_mapped) ∧
  (Forall (λ r, blank_text r = false) (rows df_mapped) →
   ¬ lacks_duration df_mapped → backfill_fits df_mapped →
   ∃ out, parse_excel df_mapped = Ok out).
Proof.
  unfold parse_excel, backfill_overflows, backfill_fits, to_backfill. split.
  - intros [out E].
    destruct (_detect_structure df_mapped) as [d|] eqn:Ed; [|done].
    rewrite bind_Ok in E.
    assert (Hclean : ∃ out, _clean_data d = Ok out)
      by (destruct (_clean_data d); [eauto|done]).
    apply clean_data_returns in Hclean as [Hl Hfill].
    split; [apply detect_structure_returns; eauto|].
    split; [by rewrite <- (lacks_duration_detect df_mapped d Ed)|].
    case_decide as Hse; [|by intros ?%Exists_nil].
    rewrite Exists_exists.
    intros (r & Hr & s & e & Es & Ee & Hover).
    apply list_elem_of_filter in Hr as [Hna Hr].
    apply list_elem_of_lookup_1 in Hr as [i Hi].
    destruct (Forall2_lookup_l _ _ _ _ _ (dated_rows_same df_mapped d Ed) Hi)
      as (r' & Hi' & Es' & Ee' & Ed').
    rewrite <- (date_columns_detect df_mapped d Ed) in Hse.
    specialize (Hfill Hse). rewrite Forall_lookup in Hfill.
    destruct (Hfill i r' Hi') as [r'' Hr''].
    destruct (backfill_duration_overflows r' s e) as [x Hx];
      [|congruence|congruence|done|congruence].
    unfold get. by rewrite Ed'.
  - intros Hblank Hl Hfits.
    apply detect_structure_returns in Hblank as [d Ed].
    rewrite Ed, bind_Ok.
    destruct (_clean_data d) as [out|x] eqn:Ec; [eauto|].
    assert (Hclean : ∃ out, _clean_data d = Ok out);
      [|destruct Hclean as [o Ho]; congruence].
    apply clean_data_returns.
    split; [by rewrite (lacks_duration_detect df_mapped d Ed)|].
    intros Hse. rewrite (date_columns_detect df_mapped d Ed) in Hse.
    rewrite decide_True in Hfits by done.
    apply Forall_lookup. intros i r' Hi'.
    destruct (Forall2_lookup_r _ _ _ _ _ (dated_rows_same df_mapped d Ed) Hi')
      as (r & Hi & Es & Ee & Ed').
    apply backfill_duration_fits. intros Hna s e Hs He.
    rewrite Forall_forall in Hfits. apply (Hfits r).
    + apply list_elem_of_filter. split.
      * unfold get in *. by rewrite <- Ed'.
      * by eapply list_elem_of_lookup_2.
    + congruence.
    + congruence.
Qed.

(** X9.  What [parse_excel] returns keeps what the detector wrote: as
    many rows, in the same order, with the same level, bloc and phase in
    each. *)
Theorem parse_excel_keeps_hierarchy (df_mapped d out : DataFrame) :
  _detect_structure df_mapped = Ok d → parse_excel df_mapped = Ok out →
  Forall2 (λ r r' : Series,
             r' !! "level" = r !! "level" ∧ r' !! "bloc" = r !! "bloc" ∧
             r' !! "phase" = r !! "phase") (rows d) (rows out).
Proof.
  intros Ed. unfold parse_excel. rewrite Ed, bind_Ok.
  destruct (_clean_data d) as [out'|] eqn:Ec; [|done].
  intros E. apply Ok_inj in E. subst out'.
  eapply Forall2_impl; [exact (clean_data_rows d out Ec)|].
  intros r r' (r1 & r2 & r3 & r4 & Hr1 & Hr2 & Hr3 & Hr4 & ->).
  assert (Hk : ∀ k, k ≠ "task" → k ≠ "task_name" → k ≠ "start" →
                    k ≠ "start_date" → k ≠ "end" → k ≠ "end_date" →
                    k ≠ "duration" → k ≠ "progress" → k ≠ "value" →
    renamed (bool_decide ("end" ∈ columns d)) "end" "end_date"
      (renamed (bool_decide ("start" ∈ columns d)) "start" "start_date"
         (renamed (bool_decide ("task" ∈ columns d)) "task" "task_name"
            r4)) !! k = r !! k).
  { intros k ? ? ? ? ? ? ? ? ?. rewrite !renamed_other by done.
    rewrite Hr4 by done.
    rewrite (backfilled_other _ _ _ k Hr3) by done.
    rewrite (coerced_other _ _ _ _ k Hr2) by done.
    by rewrite (coerced_other _ _ _ _ k Hr1). }
  repeat split; by apply Hk.
Qed.

End CleaningExtras.

(** * More of the validator *)

Section ValidatorExtras.
Context `{Pandas}.

Ltac bind_inv E :=
  repeat
    (first
       [ apply Ok_inj in E; subst
       | match type of E with
         | (?m ≫= _) = Ok _ =>
             let Em := fresh "Em" in
             destruct m eqn:Em;
             [rewrite bind_Ok in E|rewrite bind_Raise in E; discriminate E]
         | (if ?b then _ else _) = Ok _ => destruct b eqn:?
         | (let '(_, _) := ?p in _) = Ok _ => destruct p
         end ]).

Lemma for_each_Forall {A : Type} (P : Alert → Prop)
  (body : A → result (list Alert)) (l : list A) :
  ∀ out,
    (∀ x found, x ∈ l → body x = Ok found → Forall P found) →
    for_each body l = Ok out → Forall P out.
Proof.
  induction l as [|x l IH]; intros out Hb; simpl.
  - intros E. apply Ok_inj in E. subst. constructor.
  - destruct (body x) as [found|] eqn:Ex; [|done]. rewrite bind_Ok.
    destruct (for_each body l) as [rest|] eqn:El; [|done]. rewrite bind_Ok.
    intros E. apply Ok_inj in E. subst. apply Forall_app. split.
    + eapply Hb; [left|done].
    + apply IH; [|done]. intros y found' Hy. apply Hb. by right.
Qed.

Lemma dropna_inv (subset : list string) (cols : gset string)
  (tasks kept : list (nat * Series)) :
  dropna subset cols tasks = Ok kept →
  Forall (λ c, c ∈ cols) subset ∧
  kept = filter (λ ir : nat * Series,
                   forallb (λ c, notna (get ir.2 c)) subset = true) tasks.
Proof.
  unfold dropna.
  destruct (filter (λ c, c ∉ cols) subset) as [|c0 l0] eqn:E; [|done].
  intros E'. apply Ok_inj in E'. split; [|done].
  apply Forall_forall. intros c Hc.
  destruct (decide (c ∈ cols)) as [|Hn]; [done|].
  assert (Hin : c ∈ filter (λ c, c ∉ cols) subset)
    by by apply list_elem_of_filter.
  rewrite E in Hin. by apply elem_of_nil in Hin.
Qed.

Lemma tasks_of_inv (df : DataFrame) (tasks : list (nat * Series)) :
  tasks_of df = Ok tasks → "level" ∈ columns df.
Proof. unfold tasks_of. by case_decide. Qed.

Lemma kept_task (df : DataFrame) subset tasks kept (i : nat) (r : Series) :
  tasks_of df = Ok tasks → dropna subset (columns df) tasks = Ok kept →
  (i, r) ∈ kept → rows df !! i = Some r ∧ get r "level" = tache.
Proof.
  intros Ht Hk Hin. apply dropna_inv in Hk as [_ ->].
  apply list_elem_of_filter in Hin as [_ Hin].
  by apply (elem_of_tasks_of df _ i r Ht).
Qed.

Lemma alert_at_task (df : DataFrame) (i : nat) (r : Series)
  (s m : pystr) :
  rows df !! i = Some r ∧ get r "level" = tache →
  s = py "error" ∨ s = py "warning" ∨ s = py "info" →
  known_severity (mkAlert s m (Some i)) ∧
  points_at_task df (mkAlert s m (Some i)).
Proof.
  intros Hr Hs. split; [exact Hs|].
  intros j [= <-]. by exists r.
Qed.

Ltac alerts_ok Hr :=
  repeat first
    [ apply Forall_nil_2
    | apply Forall_app_2
    | apply Forall_cons_2
    | apply (alert_at_task _ _ _ _ _ Hr); auto
    | case_match ].

Lemma missing_dates_alerts (df : DataFrame) out :
  _check_missing_dates df = Ok out →
  Forall (λ a, known_severity a ∧ points_at_task df a) out.
Proof.
  unfold _check_missing_dates.
  destruct (tasks_of df) as [tasks|] eqn:Ht; [rewrite bind_Ok|done].
  apply for_each_Forall. intros [i r] found Hin E.
  apply (elem_of_tasks_of df _ i r Ht) in Hin.
  apply Ok_inj in E. subst. alerts_ok Hin.
Qed.

Lemma orphan_tasks_alerts (df : DataFrame) out :
  _check_orphan_tasks df = Ok out →
  Forall (λ a, known_severity a ∧ points_at_task df a) out.
Proof.
  unfold _check_orphan_tasks.
  destruct (tasks_of df) as [tasks|] eqn:Ht; [rewrite bind_Ok|done].
  apply for_each_Forall. intros [i r] found Hin E.
  apply (elem_of_tasks_of df _ i r Ht) in Hin.
  apply Ok_inj in E. subst. alerts_ok Hin.
Qed.

Lemma duration_coherence_alerts (df : DataFrame) out :
  _check_duration_coherence df = Ok out →
  Forall (λ a, known_severity a ∧ points_at_task df a) out.
Proof.
  unfold _check_duration_coherence.
  destruct (tasks_of df) as [tasks|] eqn:Ht; [rewrite bind_Ok|done].
  destruct (dropna _ _ tasks) as [kept|] eqn:Hk; [rewrite bind_Ok|done].
  apply for_each_Forall. intros [i r] found Hin E.
  apply (kept_task df _ _ _ i r Ht Hk) in Hin.
  bind_inv E; alerts_ok Hin.
Qed.

Lemma progress_range_alerts (df : DataFrame) out :
  _check_progress_range df = Ok out →
  Forall (λ a, known_severity a ∧ points_at_task df a) out.
Proof.
  unfold _check_progress_range.
  destruct (tasks_of df) as [tasks|] eqn:Ht; [rewrite bind_Ok|done].
  destruct (dropna _ _ tasks) as [kept|] eqn:Hk; [rewrite bind_Ok|done].
  apply for_each_Forall. intros [i r] found Hin E.
  apply (kept_task df _ _ _ i r Ht Hk) in Hin.
  bind_inv E; alerts_ok Hin.
Qed.

Lemma date_order_alerts (df : DataFrame) out :
  _check_date_order df = Ok out →
  Forall (λ a, known_severity a ∧ points_at_task df a) out.
Proof.
  unfold _check_date_order.
  destruct (tasks_of df) as [tasks|] eqn:Ht; [rewrite bind_Ok|done].
  destruct (dropna _ _ tasks) as [kept|] eqn:Hk; [rewrite bind_Ok|done].
  apply for_each_Forall. intros [i r] found Hin E.
  apply (kept_task df _ _ _ i r Ht Hk) in Hin.
  bind_inv E; alerts_ok Hin.
Qed.

Lemma future_progress_alerts (today : Z) (df : DataFrame) out :
  _check_future_progress today df = Ok out →
  Forall (λ a, known_severity a ∧ points_at_task df a) out.
Proof.
  unfold _check_future_progress.
  destruct (tasks_of df) as [tasks|] eqn:Ht; [rewrite bind_Ok|done].
  destruct (dropna _ _ tasks) as [kept|] eqn:Hk; [rewrite bind_Ok|done].
  apply for_each_Forall. intros [i r] found Hin E.
  apply (kept_task df _ _ _ i r Ht Hk) in Hin.
  bind_inv E; alerts_ok Hin.
Qed.

Lemma missing_values_alerts (df : DataFrame) out :
  _check_missing_values df = Ok out →
  Forall (λ a, known_severity a ∧ points_at_task df a) out.
Proof.
  unfold _check_missing_values.
  destruct (tasks_of df) as [tasks|] eqn:Ht; [rewrite bind_Ok|done].
  case_decide; [|done]. case_match; intros E; apply Ok_inj in E; subst.
  - apply Forall_cons_2; [|apply Forall_nil_2]. split.
    + right. by right.
    + by intros j.
  - apply Forall_nil_2.
Qed.

Lemma sort_values_inv (c : string) (l sorted : list (nat * Series)) :
  sort_values c l = Ok sorted → sorted ≡ₚ l.
Proof.
  unfold sort_values. case_match; [|done].
  intros E. apply Ok_inj in E. subst. apply sort_cells_perm.
Qed.

Lemma overlapping_tasks_alerts (df : DataFrame) out :
  _check_overlapping_tasks df = Ok out →
  Forall (λ a, known_severity a ∧ points_at_task df a) out.
Proof.
  unfold _check_overlapping_tasks.
  destruct (tasks_of df) as [tasks|] eqn:Ht; [rewrite bind_Ok|done].
  destruct (dropna _ _ tasks) as [kept|] eqn:Hk; [rewrite bind_Ok|done].
  apply for_each_Forall. intros ph found _.
  destruct (sort_values _ _) as [group|] eqn:Hs; [rewrite bind_Ok|done].
  apply for_each_Forall. intros i found' _.
  destruct (group !! i) as [[j r]|] eqn:Hi; [|done].
  destruct (group !! (i + 1)%nat) as [next|]; [|done].
  assert (Hin : rows df !! j = Some r ∧ get r "level" = tache).
  { apply (kept_task df _ _ _ j r Ht Hk).
    apply list_elem_of_lookup_2 in Hi.
    rewrite (sort_values_inv _ _ _ Hs) in Hi.
    by apply list_elem_of_filter in Hi as [_ Hi]. }
  unfold overlap_alert. intros E. simpl in E.
  bind_inv E; alerts_ok Hin.
Qed.

Lemma validate_alerts (today : Z) (df : DataFrame) out :
  validate today df = Ok out →
  Forall (λ a, known_severity a ∧ points_at_task df a) out.
Proof.
  unfold validate. apply for_each_Forall. intros rule found Hrule.
  unfold rules in Hrule.
  repeat (apply elem_of_cons in Hrule as [->|Hrule]);
    [ apply missing_dates_alerts | apply duration_coherence_alerts
    | apply progress_range_alerts | apply date_order_alerts
    | apply orphan_tasks_alerts | apply overlapping_tasks_alerts
    | apply missing_values_alerts | apply future_progress_alerts
    | by apply elem_of_nil in Hrule ].
Qed.

Lemma rules_alerts (today : Z) (df : DataFrame)
  (rule : DataFrame → result (list Alert)) (found : list Alert) :
  rule ∈ rules today → rule df = Ok found →
  Forall (λ a, known_severity a ∧ points_at_task df a) found.
Proof.
  intros Hrule. unfold rules in Hrule.
  repeat (apply elem_of_cons in Hrule as [->|Hrule]);
    [ apply missing_dates_alerts | apply duration_coherence_alerts
    | apply progress_range_alerts | apply date_order_alerts
    | apply orphan_tasks_alerts | apply overlapping_tasks_alerts
    | apply missing_values_alerts | apply future_progress_alerts
    | by apply elem_of_nil in Hrule ].
Qed.

(** X10.  Every alert that [validate] returns has one of the three
    severities error, warning and info, and carries either no row label
    or the label of a task row of the validated frame. *)
Theorem validate_alerts_point_at_tasks (today : Z) (df : DataFrame)
  (alerts : list Alert) :
  validate today df = Ok alerts →
  Forall (λ a, known_severity a ∧ points_at_task df a) alerts.
Proof.
  unfold validate. apply for_each_Forall.
  intros rule found Hrule Hfound.
  by apply (rules_alerts today df rule).
Qed.

Lemma severities_distinct :
  py "error" ≠ py "total" ∧ py "warning" ≠ py "total" ∧
  py "info" ≠ py "total" ∧ py "error" ≠ py "warning" ∧
  py "error" ≠ py "info" ∧ py "warning" ≠ py "info".
Proof. repeat split; vm_compute; discriminate. Qed.

Lemma count_cons (s : pystr) (a : Alert) (l : list Alert) :
  count s (a :: l)
  = ((if decide (severity a = s) then 1 else 0) + count s l)%nat.
Proof. unfold count. rewrite filter_cons. by case_decide. Qed.

Lemma count_known (alerts : list Alert) :
  Forall known_severity alerts →
  count (py "total") alerts = 0%nat ∧
  (count (py "error") alerts + count (py "warning") alerts +
   count (py "info") alerts)%nat = length alerts.
Proof.
  destruct severities_distinct as (? & ? & ? & ? & ? & ?).
  induction 1 as [|a l Ha _ [IH0 IH]]; [done|].
  rewrite !count_cons, IH0. simpl length. rewrite <- IH.
  destruct Ha as [E|[E|E]]; rewrite E;
    repeat (case_decide; try congruence); split; lia.
Qed.

(** X11.  On what [validate] returns, [get_summary] gives the number of
    alerts as the total, and the error, warning and info counts add up
    to it. *)
Theorem validate_summary_total (today : Z) (df : DataFrame)
  (alerts : list Alert) :
  validate today df = Ok alerts →
  get_summary alerts !! py "total" = Some (length alerts) ∧
  (count (py "error") alerts + count (py "warning") alerts +
   count (py "info") alerts)%nat = length alerts.
Proof.
  intros E.
  assert (Hall : Forall (λ a, known_severity a ∧ points_at_task df a)
                   alerts).
  { revert E. unfold validate. apply for_each_Forall.
    intros rule found Hrule Hfound.
    exact (rules_alerts today df rule found Hrule Hfound). }
  assert (Hknown : Forall known_severity alerts).
  { eapply Forall_impl; [exact Hall|]. by intros a [Ha _]. }
  destruct (count_known alerts Hknown) as [H0 Hsum].
  split; [|exact Hsum].
  rewrite get_summary_total, H0. f_equal. lia.
Qed.

(** X12.  The entries of the summary, for any list of alerts: under
    total, the length of the list plus the number of alerts whose
    severity is the string total; under error, warning and info, the
    number of alerts of that severity; under any other key, the number
    of alerts of that severity when there is one, and no entry
    otherwise. *)
Theorem get_summary_entries (alerts : list Alert) (s : pystr) :
  get_summary alerts !! s
  = if decide (s = py "total") then
      Some (length alerts + count s alerts)%nat
    else if decide (s = py "error" ∨ s = py "warning" ∨ s = py "info") then
      Some (count s alerts)
    else if decide (count s alerts = 0%nat) then None
    else Some (count s alerts).
Proof.
  destruct severities_distinct as (? & ? & ? & ? & ? & ?).
  case_decide as Ht; [subst s; apply get_summary_total|].
  unfold get_summary. rewrite summary_fold.
  case_decide as Hk.
  - destruct Hk as [-> | [-> | ->]];
      repeat (rewrite lookup_insert_eq ||
              rewrite lookup_insert_ne by congruence);
      by destruct (count _ alerts).
  - assert (Hnone :
      ({[ py "error" := 0%nat; py "warning" := 0%nat; py "info" := 0%nat;
          py "total" := length alerts ]} : gmap pystr nat) !! s = None).
    { rewrite !lookup_insert_ne, lookup_singleton_ne
        by (intros <-; auto 6).
      reflexivity. }
    rewrite Hnone. destruct (count s alerts) as [|n]; [done|].
    rewrite decide_False by lia. reflexivity.
Qed.

Lemma for_each_Ok_inv {A : Type} (body : A → result (list Alert))
  (l : list A) (out : list Alert) :
  for_each body l = Ok out → ∀ x, x ∈ l → ∃ found, body x = Ok found.
Proof.
  revert out. induction l as [|y l IH]; intros out E x Hx.
  - by apply elem_of_nil in Hx.
  - simpl in E.
    destruct (body y) as [found|] eqn:Ey; [rewrite bind_Ok in E|done].
    destruct (for_each body l) as [rest|] eqn:El; [|done].
    apply elem_of_cons in Hx as [->|Hx]; [eauto|].
    by apply (IH rest).
Qed.

(** X13.  [validate] returns only on a frame that has the columns level,
    start_date, end_date, duration, progress, phase and value: without
    one of them some rule raises [KeyError]. *)
Theorem validate_requires_columns (today : Z) (df : DataFrame)
  (alerts : list Alert) :
  validate today df = Ok alerts →
  Forall (λ c, c ∈ columns df) required_columns.
Proof.
  intros E. pose proof (for_each_Ok_inv _ _ _ E) as Hrules.
  destruct (Hrules _check_duration_coherence) as [a1 E1];
    [unfold rules; rewrite !elem_of_cons; auto 10|].
  destruct (Hrules _check_progress_range) as [a2 E2];
    [unfold rules; rewrite !elem_of_cons; auto 10|].
  destruct (Hrules _check_overlapping_tasks) as [a3 E3];
    [unfold rules; rewrite !elem_of_cons; auto 10|].
  destruct (Hrules _check_missing_values) as [a4 E4];
    [unfold rules; rewrite !elem_of_cons; auto 10|].
  clear Hrules E.
  unfold _check_duration_coherence in E1.
  destruct (tasks_of df) as [tasks|] eqn:Ht; [|done].
  rewrite bind_Ok in E1.
  destruct (dropna _ _ tasks) as [k1|] eqn:Hk1 in E1; [|done].
  apply dropna_inv in Hk1 as [Hc1 _].
  unfold _check_progress_range in E2. rewrite Ht, bind_Ok in E2.
  destruct (dropna _ _ tasks) as [k2|] eqn:Hk2 in E2; [|done].
  apply dropna_inv in Hk2 as [Hc2 _].
  unfold _check_overlapping_tasks in E3. rewrite Ht, bind_Ok in E3.
  destruct (dropna _ _ tasks) as [k3|] eqn:Hk3 in E3; [|done].
  apply dropna_inv in Hk3 as [Hc3 _].
  unfold _check_missing_values in E4. rewrite Ht, bind_Ok in E4.
  destruct (decide ("value" ∈ columns df)) as [Hv|] in E4; [|done].
  apply tasks_of_inv in Ht.
  inversion Hc1 as [|? ? ? Hc1']; subst.
  inversion Hc1' as [|? ? ? Hc1'']; subst.
  inversion Hc1'' as [|? ? ? _]; subst.
  inversion Hc2; subst. inversion Hc3; subst.
  unfold required_columns. repeat apply Forall_cons_2; try done.
Qed.

Lemma for_each_returns {A : Type} (body : A → result (list Alert))
  (l : list A) :
  (∀ x, x ∈ l → ∃ found, body x = Ok found) →
  ∃ out, for_each body l = Ok out.
Proof.
  induction l as [|x l IH]; intros Hb; simpl; [eauto|].
  destruct (Hb x) as [found ->]; [left|].
  destruct IH as [rest ->]; [|eauto].
  intros y Hy. apply Hb. by right.
Qed.

Lemma tasks_of_returns (df : DataFrame) :
  "level" ∈ columns df → ∃ tasks, tasks_of df = Ok tasks.
Proof. intros Hl. unfold tasks_of. rewrite decide_True by done. eauto. Qed.

Lemma readable_kept (df : DataFrame) (tasks : list (nat * Series))
  (subset : list string) (i : nat) (r : Series) :
  Forall (λ r : Series, get r "level" = tache → readable_task r) (rows df) →
  tasks_of df = Ok tasks →
  (i, r) ∈ filter (λ ir : nat * Series,
                     forallb (λ c, notna (get ir.2 c)) subset = true) tasks →
  readable_task r ∧ forallb (λ c, notna (get r c)) subset = true.
Proof.
  intros Hread Ht Hin. apply list_elem_of_filter in Hin as [Hna Hin].
  split; [|exact Hna].
  apply (elem_of_tasks_of df _ i r Ht) in Hin as [Hi Hl].
  rewrite Forall_lookup in Hread. by eapply Hread.
Qed.

Lemma one_kind_timestamps (cs : list cell) :
  Forall (λ c, ∃ s, c = Timestamp s) cs → one_kind cs = true.
Proof.
  destruct 1 as [|c cs [s ->] Hcs]; [done|]. simpl.
  apply forallb_forall. intros c Hc. apply list_elem_of_In in Hc.
  rewrite Forall_forall in Hcs. by destruct (Hcs c Hc) as [s' ->].
Qed.

Lemma elem_of_adjacent_pairs {A : Type} (a b : A) (l : list A) :
  (a, b) ∈ adjacent_pairs l → a ∈ l ∧ b ∈ l.
Proof.
  induction l as [|x [|y t] IH]; simpl; [by intros ?%elem_of_nil..|].
  intros [[= -> ->]|Hin]%elem_of_cons.
  - split; [left|right; left].
  - destruct (IH Hin). split; by right.
Qed.

Lemma readable_shapes (r : Series) :
  readable_task r →
  ∃ s e d n,
    r !! "start_date" = Some s ∧ r !! "end_date" = Some e ∧
    r !! "duration" = Some d ∧ r !! "task_name" = Some n ∧
    date_or_na s = true ∧ date_or_na e = true ∧ int_or_na d = true ∧
    int_or_na (get r "progress") = true.
Proof.
  unfold readable_task, normalized_task.
  intros (Hn & _ & Hp & [n Hname]).
  destruct (r !! "start_date") as [s|]; [|done].
  destruct (r !! "end_date") as [e|]; [|done].
  destruct (r !! "duration") as [d|]; [|done].
  apply andb_prop in Hn as [Hn Hd]. apply andb_prop in Hn as [Hs He].
  by exists s, e, d, n.
Qed.

Lemma notna_item (r : Series) (c : string) :
  notna (get r c) = true →
  ∃ v, isna v = false ∧ item r c = Ok v ∧ get r c = v.
Proof.
  unfold notna, get, item. destruct (r !! c) as [v|]; simpl; [|done].
  intros Hv%negb_true_iff. eauto.
Qed.

Ltac run := repeat (cbv beta iota; rewrite ?bind_Ok).

Lemma missing_dates_returns (df : DataFrame) :
  "level" ∈ columns df → ∃ out, _check_missing_dates df = Ok out.
Proof.
  intros Hl. unfold _check_missing_dates.
  destruct (tasks_of_returns df Hl) as [tasks ->]. rewrite bind_Ok.
  apply for_each_returns. intros [i r] _. eauto.
Qed.

Lemma orphan_tasks_returns (df : DataFrame) :
  "level" ∈ columns df → ∃ out, _check_orphan_tasks df = Ok out.
Proof.
  intros Hl. unfold _check_orphan_tasks.
  destruct (tasks_of_returns df Hl) as [tasks ->]. rewrite bind_Ok.
  apply for_each_returns. intros [i r] _. eauto.
Qed.

Lemma missing_values_returns (df : DataFrame) :
  "level" ∈ columns df → "value" ∈ columns df →
  ∃ out, _check_missing_values df = Ok out.
Proof.
  intros Hl Hv. unfold _check_missing_values.
  destruct (tasks_of_returns df Hl) as [tasks ->]. rewrite bind_Ok.
  rewrite decide_True by done. cbv zeta. case_match; eauto.
Qed.

Section Readable.
Variable df : DataFrame.
Hypothesis Hcols : Forall (λ c, c ∈ columns df) required_columns.
Hypothesis Hread :
  Forall (λ r : Series, get r "level" = tache → readable_task r) (rows df).

Lemma required_level : "level" ∈ columns df.
Proof. by inversion Hcols. Qed.

Lemma required_subset (subset : list string) :
  subset ⊆ required_columns → Forall (λ c, c ∈ columns df) subset.
Proof.
  intros Hsub. apply Forall_forall. intros c Hc.
  rewrite Forall_forall in Hcols. apply Hcols. by apply Hsub.
Qed.

Lemma progress_range_returns : ∃ out, _check_progress_range df = Ok out.
Proof.
  unfold _check_progress_range.
  destruct (tasks_of_returns df required_level) as [tasks Ht].
  rewrite Ht, bind_Ok.
  rewrite dropna_Ok
    by (apply required_subset; intros c ->%list_elem_of_singleton;
        unfold required_columns; rewrite !elem_of_cons; auto 10).
  rewrite bind_Ok. apply for_each_returns. intros [i r] Hin.
  apply (readable_kept df tasks _ i r Hread Ht) in Hin as [Hr Hna].
  destruct Hr as (_ & _ & Hp & _).
  simpl in Hna. apply andb_prop in Hna as [Hna _].
  destruct (notna_item r "progress" Hna) as (v & Hv & -> & Eg).
  rewrite Eg in Hp. destruct v; cbn in Hv, Hp; try done.
  unfold py_lt, py_gt, comparable. repeat (run; try case_match); eauto.
Qed.

Lemma date_order_returns : ∃ out, _check_date_order df = Ok out.
Proof.
  unfold _check_date_order.
  destruct (tasks_of_returns df required_level) as [tasks Ht].
  rewrite Ht, bind_Ok.
  rewrite dropna_Ok
    by (apply required_subset; intros c; unfold required_columns;
        rewrite !elem_of_cons; intros [->|[->|[]%elem_of_nil]]; auto 10).
  rewrite bind_Ok. apply for_each_returns. intros [i r] Hin.
  apply (readable_kept df tasks _ i r Hread Ht) in Hin as [Hr Hna].
  destruct (readable_shapes r Hr)
    as (s & e & d & n & Es & Ee & _ & _ & Hs & He & _ & _).
  simpl in Hna. apply andb_prop in Hna as [Hna1 Hna].
  apply andb_prop in Hna as [Hna2 _].
  destruct (notna_item r "start_date" Hna1) as (s' & Hs' & -> & Eg1).
  destruct (notna_item r "end_date" Hna2) as (e' & He' & -> & Eg2).
  unfold get in Eg1, Eg2. rewrite Es in Eg1. rewrite Ee in Eg2.
  simpl in Eg1, Eg2. subst s' e'.
  destruct s; cbn in Hs, Hs'; try done.
  destruct e; cbn in He, He'; try done.
  unfold py_ge, comparable. repeat (run; try case_match); eauto.
Qed.

Lemma future_progress_returns (today : Z) :
  ∃ out, _check_future_progress today df = Ok out.
Proof.
  unfold _check_future_progress.
  destruct (tasks_of_returns df required_level) as [tasks Ht].
  rewrite Ht, bind_Ok.
  rewrite dropna_Ok
    by (apply required_subset; intros c; unfold required_columns;
        rewrite !elem_of_cons; intros [->|[->|[]%elem_of_nil]]; auto 10).
  rewrite bind_Ok. apply for_each_returns. intros [i r] Hin.
  apply (readable_kept df tasks _ i r Hread Ht) in Hin as [Hr Hna].
  destruct (readable_shapes r Hr)
    as (s & e & d & n & Es & _ & _ & _ & Hs & _ & _ & Hp).
  simpl in Hna. apply andb_prop in Hna as [Hna1 Hna].
  apply andb_prop in Hna as [Hna2 _].
  destruct (notna_item r "start_date" Hna1) as (s' & Hs' & -> & Eg1).
  destruct (notna_item r "progress" Hna2) as (p & Hp' & -> & Eg2).
  unfold get in Eg1. rewrite Es in Eg1. simpl in Eg1. subst s'.
  rewrite Eg2 in Hp.
  destruct s; cbn in Hs, Hs'; try done.
  destruct p; cbn in Hp, Hp'; try done.
  unfold py_gt, comparable. repeat (run; try case_match); eauto.
Qed.

Lemma duration_coherence_returns :
  ∃ out, _check_duration_coherence df = Ok out.
Proof.
  destruct (tasks_of_returns df required_level) as [tasks Ht].
  exists (concat (duration_finding <$> tasks)).
  apply duration_coherence_Ok; [| | |done].
  - apply required_subset. intros c. unfold required_columns.
    rewrite !elem_of_cons. intros [->|[->|[->|[->|[]%elem_of_nil]]]]; auto 10.
  - eapply Forall_impl; [exact Hread|]. intros r Hr Hl. by apply Hr.
  - eapply Forall_impl; [exact Hread|]. intros r Hr Hl. by apply Hr.
Qed.

Lemma overlapping_tasks_returns :
  ∃ out, _check_overlapping_tasks df = Ok out.
Proof.
  unfold _check_overlapping_tasks.
  destruct (tasks_of_returns df required_level) as [tasks Ht].
  rewrite Ht, bind_Ok.
  rewrite dropna_Ok
    by (apply required_subset; intros c; unfold required_columns;
        rewrite !elem_of_cons; intros [->|[->|[->|[]%elem_of_nil]]]; auto 10).
  rewrite bind_Ok. apply for_each_returns. intros ph _.
  set (kept := filter _ tasks).
  set (group := filter _ kept).
  assert (Hdated : ∀ ir, ir ∈ group →
            ∃ s e n, ir.2 !! "start_date" = Some (Timestamp s) ∧
                     ir.2 !! "end_date" = Some (Timestamp e) ∧
                     ir.2 !! "task_name" = Some n).
  { intros [i r] Hin. apply list_elem_of_filter in Hin as [_ Hin].
    apply (readable_kept df tasks _ i r Hread Ht) in Hin as [Hr Hna].
    destruct (readable_shapes r Hr)
      as (s & e & d & n & Es & Ee & _ & En & Hs & He & _ & _).
    simpl in Hna. apply andb_prop in Hna as [_ Hna].
    apply andb_prop in Hna as [Hna1 Hna].
    apply andb_prop in Hna as [Hna2 _].
    unfold notna, get in Hna1, Hna2. rewrite Es in Hna1. rewrite Ee in Hna2.
    destruct s; cbn in Hs, Hna1; try done.
    destruct e; cbn in He, Hna2; try done.
    simpl. eauto 10. }
  unfold sort_values. rewrite one_kind_timestamps.
  2:{ apply Forall_fmap, Forall_forall. intros ir Hin.
      destruct (Hdated ir Hin) as (s & e & n & Es & _). exists s.
      simpl. unfold get. by rewrite Es. }
  rewrite bind_Ok, index_loop_adjacent_pairs.
  apply for_each_returns. intros [a b] Hab.
  apply elem_of_adjacent_pairs in Hab as [Ha Hb].
  rewrite sort_cells_perm in Ha, Hb.
  destruct (Hdated a Ha) as (sa & ea & na & _ & Eea & Ena).
  destruct (Hdated b Hb) as (sb & eb & nb & Esb & _ & Enb).
  unfold overlap_alert, item. rewrite Eea, Esb, Ena, Enb.
  unfold py_gt, comparable. repeat (run; try case_match); eauto.
Qed.

End Readable.

(** X14.  On a frame that has the required columns and whose task rows
    are readable (dates that are timestamps or missing and less than
    2^63 nanoseconds apart, a duration and a progress that are integers
    or missing, a name), no rule raises: [validate] returns a list of
    alerts, on any day. *)
Theorem validate_returns_on_readable (today : Z) (df : DataFrame) :
  Forall (λ c, c ∈ columns df) required_columns →
  Forall (λ r : Series, get r "level" = tache → readable_task r)
    (rows df) →
  ∃ alerts, validate today df = Ok alerts.
Proof.
  intros Hcols Hread. unfold validate. apply for_each_returns.
  intros rule Hrule. unfold rules in Hrule.
  assert (Hl : "level" ∈ columns df) by by inversion Hcols.
  assert (Hv : "value" ∈ columns df).
  { rewrite Forall_forall in Hcols. apply Hcols.
    unfold required_columns. rewrite !elem_of_cons. auto 10. }
  repeat (apply elem_of_cons in Hrule as [->|Hrule]).
  - by apply missing_dates_returns.
  - by apply duration_coherence_returns.
  - by apply progress_range_returns.
  - by apply date_order_returns.
  - by apply orphan_tasks_returns.
  - by apply overlapping_tasks_returns.
  - by apply missing_values_returns.
  - by apply future_progress_returns.
  - by apply elem_of_nil in Hrule.
Qed.

Lemma for_each_sublist {A : Type} (f g : A → result (list Alert))
  (l : list A) :
  ∀ out,
    (∀ x found, x ∈ l → f x = Ok found →
       ∃ found', g x = Ok found' ∧ sublist found' found) →
    for_each f l = Ok out →
    ∃ out', for_each g l = Ok out' ∧ sublist out' out.
Proof.
  induction l as [|x l IH]; intros out Hb; simpl.
  - intros E. apply Ok_inj in E. subst. by exists [].
  - destruct (f x) as [found|] eqn:Ex; [rewrite bind_Ok|done].
    destruct (for_each f l) as [rest|] eqn:El; [rewrite bind_Ok|done].
    intros E. apply Ok_inj in E. subst.
    destruct (Hb x found) as (found' & -> & Hsub); [left|done|].
    destruct (IH rest) as (rest' & -> & Hsub'); [|done|].
    { intros y fy Hy. apply Hb. by right. }
    rewrite !bind_Ok. eexists. split; [reflexivity|].
    by apply sublist_app.
Qed.

(** X15.  The future-progress rule as days pass: if it returns on one
    day, it returns on every later day, and what it returns then is what
    it returned before with some alerts left out, in the same order.
    Warnings go away when the start date is reached; none comes up. *)
Theorem future_progress_fades (today today' : Z) (df : DataFrame)
  (alerts : list Alert) :
  today ≤ today' → _check_future_progress today df = Ok alerts →
  ∃ alerts', _check_future_progress today' df = Ok alerts' ∧
             sublist alerts' alerts.
Proof.
  intros Hle. unfold _check_future_progress.
  destruct (tasks_of df) as [tasks|]; [rewrite !bind_Ok|done].
  destruct (dropna _ _ tasks) as [kept|]; [rewrite !bind_Ok|done].
  apply for_each_sublist. intros [i r] found _.
  destruct (item r "start_date") as [c|]; [rewrite !bind_Ok|done].
  destruct c as [| | | | |s]; try done.
  change (py_gt (Timestamp s) (Timestamp today))
    with (Ok (negb (s <=? today))).
  change (py_gt (Timestamp s) (Timestamp today'))
    with (Ok (negb (s <=? today'))).
  rewrite !bind_Ok.
  destruct (Z.leb_spec s today'), (Z.leb_spec s today); try lia;
    cbn [negb]; rewrite ?bind_Ok; intros E.
  - by exists found.
  - exists []. split; [done|]. apply sublist_nil_l.
  - by exists found.
Qed.

Lemma tasks_of_Ok (df : DataFrame) :
  "level" ∈ columns df →
  tasks_of df
  = Ok (filter (λ ir : nat * Series, get ir.2 "level" = tache)
          (iterrows df)).
Proof. intros Hl. unfold tasks_of. by rewrite decide_True. Qed.

(** A rule that drops the task rows with a null among [subset] and then
    finds, without raising, what [finding] says in each row that is
    left. *)
Lemma rule_findings (subset : list string)
  (body : nat * Series → result (list Alert))
  (finding : nat * Series → list Alert) (df : DataFrame) :
  "level" ∈ columns df → Forall (λ c, c ∈ columns df) subset →
  (∀ i r, rows df !! i = Some r → get r "level" = tache →
     if forallb (λ c, notna (get r c)) subset then
       body (i, r) = Ok (finding (i, r))
     else finding (i, r) = []) →
  (tasks ← tasks_of df;
   tasks ← dropna subset (columns df) tasks;
   for_each body tasks)
  = Ok (concat (finding <$> filter (λ ir : nat * Series,
                                      get ir.2 "level" = tache)
                              (iterrows df))).
Proof.
  intros Hl Hcols Hbody.
  pose proof (tasks_of_Ok df Hl) as Ht. rewrite Ht, bind_Ok.
  rewrite dropna_Ok, bind_Ok by done.
  set (tasks := filter _ (iterrows df)) in *.
  rewrite <- (concat_fmap_filter
    (λ ir : nat * Series,
       forallb (λ c, notna (get ir.2 c)) subset = true)).
  - apply for_each_pure. intros [i r] Hin.
    apply list_elem_of_filter in Hin as [Hna Hin].
    apply (elem_of_tasks_of df _ i r Ht) in Hin as [Hi Hlevel].
    specialize (Hbody i r Hi Hlevel). simpl in Hna.
    by rewrite Hna in Hbody.
  - intros [i r] Hin Hna.
    apply (elem_of_tasks_of df _ i r Ht) in Hin as [Hi Hlevel].
    specialize (Hbody i r Hi Hlevel). simpl in Hna.
    by destruct (forallb _ subset).
Qed.

Lemma elem_of_findings (finding : nat * Series → list Alert)
  (df : DataFrame) (a : Alert) :
  a ∈ concat (finding <$> filter (λ ir : nat * Series,
                                    get ir.2 "level" = tache)
                            (iterrows df))
  ↔ ∃ i r, rows df !! i = Some r ∧ r !! "level" = Some tache ∧
           a ∈ finding (i, r).
Proof.
  rewrite elem_of_concat. split.
  - intros (found & Ha & Hfound).
    apply list_elem_of_fmap in Hfound as ([i r] & -> & Hin).
    apply list_elem_of_filter in Hin as [Hl Hin].
    apply elem_of_iterrows in Hin. apply get_level_tache in Hl.
    by exists i, r.
  - intros (i & r & Hi & Hl & Ha). exists (finding (i, r)).
    split; [done|]. apply list_elem_of_fmap. exists (i, r).
    split; [done|]. apply list_elem_of_filter.
    split; [by apply get_level_tache|by apply elem_of_iterrows].
Qed.

(** X16.  On a frame that has the level and progress columns and whose
    task rows hold an integer or a null as progress, the progress rule
    returns, in row order, one error for each task row whose progress is
    below 0 or above 100, and nothing else: 0 and 100 themselves pass,
    and so does a missing progress. *)
Theorem progress_range_fires_iff (df : DataFrame) :
  "level" ∈ columns df → "progress" ∈ columns df →
  Forall (λ r : Series,
            get r "level" = tache → int_or_na (get r "progress") = true)
    (rows df) →
  _check_progress_range df
  = Ok (concat (progress_finding <$>
                  filter (λ ir : nat * Series, get ir.2 "level" = tache)
                    (iterrows df))) ∧
  ∀ a, a ∈ concat (progress_finding <$>
                     filter (λ ir : nat * Series, get ir.2 "level" = tache)
                       (iterrows df))
       ↔ ∃ i r p, rows df !! i = Some r ∧ r !! "level" = Some tache ∧
                  r !! "progress" = Some (Int p) ∧ (p < 0 ∨ p > 100) ∧
                  a = mkAlert (py "error") (progress_message r (Int p))
                        (Some i).
Proof.
  intros Hl Hp Htyped. split.
  - unfold _check_progress_range. apply rule_findings; [done| |].
    { by apply Forall_cons_2. }
    intros i r Hi Hlevel.
    rewrite Forall_lookup in Htyped. specialize (Htyped i r Hi Hlevel).
    revert Htyped. unfold progress_finding, item, get. cbn [forallb snd fst].
    unfold get.
    destruct (r !! "progress") as [[| | | |p|?]|]; try done.
    intros _. cbn [from_option id notna isna negb andb].
    unfold py_lt, py_gt, comparable, progress_message.
    cbv beta iota. rewrite !bind_Ok. cbn [cell_leb].
    destruct (Z.leb_spec 0 p), (Z.leb_spec p 100); cbn [negb]; run;
      (rewrite decide_True by lia) || (rewrite decide_False by lia);
      reflexivity.
  - intros a. rewrite elem_of_findings. split.
    + intros (i & r & Hi & Hlevel & Ha). revert Ha.
      unfold progress_finding, get. cbn [snd fst].
      destruct (r !! "progress") as [[| | | |p|?]|] eqn:Ep;
        cbn [from_option id]; try (by intros ?%elem_of_nil).
      case_decide; [|by intros ?%elem_of_nil].
      intros ->%list_elem_of_singleton. by exists i, r, p.
    + intros (i & r & p & Hi & Hlevel & Ep & Hout & ->).
      exists i, r. split; [done|]. split; [done|].
      unfold progress_finding, get. cbn [snd fst]. rewrite Ep.
      cbn [from_option id]. rewrite decide_True by done.
      by apply list_elem_of_singleton.
Qed.

(** X17.  On a frame that has the level and the two date columns and
    whose task rows hold timestamps or nulls as dates, the date-order
    rule returns, in row order, one error for each task row with both
    dates whose start is not before its end, and nothing else: a task
    that starts and ends at the same instant is reported too. *)
Theorem date_order_fires_iff (df : DataFrame) :
  Forall (λ c, c ∈ columns df) ["level"; "start_date"; "end_date"] →
  Forall (λ r : Series,
            get r "level" = tache →
            date_or_na (get r "start_date") = true ∧
            date_or_na (get r "end_date") = true)
    (rows df) →
  _check_date_order df
  = Ok (concat (date_order_finding <$>
                  filter (λ ir : nat * Series, get ir.2 "level" = tache)
                    (iterrows df))) ∧
  ∀ a, a ∈ concat (date_order_finding <$>
                     filter (λ ir : nat * Series, get ir.2 "level" = tache)
                       (iterrows df))
       ↔ ∃ i r s e, rows df !! i = Some r ∧ r !! "level" = Some tache ∧
                    r !! "start_date" = Some (Timestamp s) ∧
                    r !! "end_date" = Some (Timestamp e) ∧ e ≤ s ∧
                    a = mkAlert (py "error")
                          (py "Date fin avant date début: " ++ name_of r)
                          (Some i).
Proof.
  intros Hcols Htyped. split.
  - unfold _check_date_order. inversion Hcols as [|? ? Hl Hcols']; subst.
    apply rule_findings; [done..|].
    intros i r Hi Hlevel.
    rewrite Forall_lookup in Htyped.
    destruct (Htyped i r Hi Hlevel) as [Hs He]. revert Hs He.
    unfold date_order_finding, item, get. cbn [forallb snd fst].
    unfold get.
    destruct (r !! "start_date") as [[| | | |?|s]|]; try done;
      destruct (r !! "end_date") as [[| | | |?|e]|]; try done.
    intros _ _. cbn [from_option id notna isna negb andb].
    unfold py_ge, comparable. cbv beta iota. rewrite !bind_Ok.
    cbn [cell_leb].
    destruct (Z.leb_spec e s); run;
      (rewrite decide_True by lia) || (rewrite decide_False by lia);
      reflexivity.
  - intros a. rewrite elem_of_findings. split.
    + intros (i & r & Hi & Hlevel & Ha). revert Ha.
      unfold date_order_finding, get. cbn [snd fst].
      destruct (r !! "start_date") as [[| | | |?|s]|] eqn:Es;
        cbn [from_option id]; try (by intros ?%elem_of_nil);
      destruct (r !! "end_date") as [[| | | |?|e]|] eqn:Ee;
        cbn [from_option id]; try (by intros ?%elem_of_nil).
      case_decide; [|by intros ?%elem_of_nil].
      intros ->%list_elem_of_singleton. by exists i, r, s, e.
    + intros (i & r & s & e & Hi & Hlevel & Es & Ee & Hout & ->).
      exists i, r. split; [done|]. split; [done|].
      unfold date_order_finding, get. cbn [snd fst]. rewrite Es, Ee.
      cbn [from_option id]. rewrite decide_True by done.
      by apply list_elem_of_singleton.
Qed.

End ValidatorExtras.

(** ** The extras on concrete frames *)

Lemma detect_keeps_other_columns_witness :
  columns (detected frame_sheet)
  = {["phase"]} ∪ ({["bloc"]} ∪ ({["level"]} ∪ columns frame_sheet)) ∧
  Forall2 same_outside_hierarchy (rows frame_sheet)
    (rows (detected frame_sheet)).
Proof.
  apply (detect_keeps_other_columns frame_sheet). vm_compute. reflexivity.
Defined.

Lemma detect_level_is_local_witness :
  Forall2 (λ r r' : Series, r' !! "level" = Some (level_of r))
    (rows frame_sheet) (rows (detected frame_sheet)).
Proof.
  apply (detect_level_is_local frame_sheet). vm_compute. reflexivity.
Defined.

Lemma detect_head_witness :
  _detect_structure (head 2 frame_sheet) = Ok (head 2 (detected frame_sheet)).
Proof. apply (detect_head frame_sheet). vm_compute. reflexivity. Defined.

Lemma clean_data_keeps_other_columns_witness :
  Forall2 (λ r r' : Series, ∀ k, k ∉ normalised_columns → same_at k r r')
    (rows (detected frame_sheet)) (rows (cleaned (detected frame_sheet))).
Proof.
  apply (clean_data_keeps_other_columns (detected frame_sheet)).
  vm_compute. reflexivity.
Defined.

Lemma clean_data_coerces_dates_witness :
  Forall (λ r' : Series,
            (∃ v, r' !! "start_date" = Some v ∧ date_or_na v = true) ∧
            r' !! "start" = None)
    (rows (cleaned (detected frame_sheet))) ∧
  Forall (λ r' : Series,
            (∃ v, r' !! "end_date" = Some v ∧ date_or_na v = true) ∧
            r' !! "end" = None)
    (rows (cleaned (detected frame_sheet))).
Proof.
  destruct (clean_data_coerces_dates (detected frame_sheet)
              (cleaned (detected frame_sheet))) as [Hs He].
  { vm_compute. reflexivity. }
  split; [apply Hs|apply He]; apply (bool_decide_unpack _);
    vm_compute; exact I.
Defined.

Lemma clean_data_backfills_null_durations_witness :
  Forall2 (λ r r' : Series,
             if isna (get r "duration") then
               "start" ∈ columns (detected frame_sheet) →
               "end" ∈ columns (detected frame_sheet) →
               ∃ d, dt_days (get r' "start_date") (get r' "end_date")
                    = Ok d ∧
                    r' !! "duration" = Some d
             else r' !! "duration" = r !! "duration")
    (rows (detected frame_sheet)) (rows (cleaned (detected frame_sheet))).
Proof.
  apply (clean_data_backfills_null_durations (detected frame_sheet)).
  - apply (bool_decide_unpack _). vm_compute. exact I.
  - apply (bool_decide_unpack _). vm_compute. exact I.
  - vm_compute. reflexivity.
Defined.

Lemma parse_excel_returns_witness :
  (Forall (λ r, blank_text r = false) (rows frame_sheet) ∧
   ¬ lacks_duration frame_sheet ∧ ¬ backfill_overflows frame_sheet) ∧
  ∃ out, parse_excel frame_sheet = Ok out.
Proof.
  destruct (parse_excel_returns frame_sheet) as [Hif Hthen].
  split.
  - apply Hif. exists (parsed frame_sheet). vm_compute. reflexivity.
  - apply Hthen.
    + repeat apply Forall_cons_2; try apply Forall_nil_2;
        vm_compute; reflexivity.
    + intros (_ & _ & Hd). apply Hd.
      apply (bool_decide_unpack _). vm_compute. exact I.
    + unfold backfill_fits.
      let l := eval vm_compute in (to_backfill frame_sheet) in
      change (to_backfill frame_sheet) with l.
      repeat apply Forall_cons_2; try apply Forall_nil_2;
        intros s e Hs He; vm_compute in Hs, He; try discriminate;
        injection Hs as <-; injection He as <-;
        vm_compute; split; reflexivity.
Defined.

Lemma parse_excel_keeps_hierarchy_witness :
  Forall2 (λ r r' : Series,
             r' !! "level" = r !! "level" ∧ r' !! "bloc" = r !! "bloc" ∧
             r' !! "phase" = r !! "phase")
    (rows (detected frame_sheet)) (rows (parsed frame_sheet)).
Proof.
  apply (parse_excel_keeps_hierarchy frame_sheet); vm_compute; reflexivity.
Defined.

Lemma validate_alerts_point_at_tasks_witness :
  Forall (λ a, known_severity a ∧ points_at_task frame_defects a)
    (validated (jan_ns 3) frame_defects).
Proof.
  apply (validate_alerts_point_at_tasks (jan_ns 3) frame_defects).
  vm_compute. reflexivity.
Defined.

Lemma validate_summary_total_witness :
  get_summary (validated (jan_ns 3) frame_defects) !! py "total"
  = Some (length (validated (jan_ns 3) frame_defects)) ∧
  (count (py "error") (validated (jan_ns 3) frame_defects) +
   count (py "warning") (validated (jan_ns 3) frame_defects) +
   count (py "info") (validated (jan_ns 3) frame_defects))%nat
  = length (validated (jan_ns 3) frame_defects).
Proof.
  apply (validate_summary_total (jan_ns 3) frame_defects).
  vm_compute. reflexivity.
Defined.

Lemma validate_requires_columns_witness :
  Forall (λ c, c ∈ columns frame_A_B) required_columns.
Proof.
  apply (validate_requires_columns (jan_ns 3) frame_A_B
           (validated (jan_ns 3) frame_A_B)).
  vm_compute. reflexivity.
Defined.

Lemma validate_returns_on_readable_witness :
  ∃ alerts, validate (jan_ns 3) frame_defects = Ok alerts.
Proof.
  apply (validate_returns_on_readable (jan_ns 3) frame_defects).
  - repeat apply Forall_cons_2; try apply Forall_nil_2; cbv beta;
      apply (bool_decide_unpack _); vm_compute; exact I.
  - repeat apply Forall_cons_2; try apply Forall_nil_2; intros _;
      (split; [vm_compute; reflexivity|]);
      (split; [intros s e Hs He; vm_compute in Hs, He; try discriminate;
               injection Hs as <-; injection He as <-;
               vm_compute; split; reflexivity|]);
      (split; [vm_compute; reflexivity|]);
      eexists; vm_compute; reflexivity.
Defined.

Lemma future_progress_fades_witness :
  ∃ alerts', _check_future_progress (jan_ns 20) frame_A_B = Ok alerts' ∧
    sublist alerts'
      [mkAlert (py "warning")
         (py "Tâche future avec avancement: TaskB (50%)") (Some 1%nat)].
Proof.
  apply (future_progress_fades (jan_ns 3) (jan_ns 20) frame_A_B).
  - unfold jan_ns, ns_per_day. lia.
  - vm_compute. reflexivity.
Defined.

Lemma progress_range_fires_iff_witness :
  _check_progress_range frame_defects
  = Ok (concat (progress_finding <$>
                  filter (λ ir : nat * Series, get ir.2 "level" = tache)
                    (iterrows frame_defects))) ∧
  ∀ a, a ∈ concat (progress_finding <$>
                     filter (λ ir : nat * Series, get ir.2 "level" = tache)
                       (iterrows frame_defects))
       ↔ ∃ i r p, rows frame_defects !! i = Some r ∧
                  r !! "level" = Some tache ∧
                  r !! "progress" = Some (Int p) ∧ (p < 0 ∨ p > 100) ∧
                  a = mkAlert (py "error") (progress_message r (Int p))
                        (Some i).
Proof.
  apply (progress_range_fires_iff frame_defects).
  - apply (bool_decide_unpack _). vm_compute. exact I.
  - apply (bool_decide_unpack _). vm_compute. exact I.
  - repeat apply Forall_cons_2; try apply Forall_nil_2; intros _;
      vm_compute; reflexivity.
Defined.

(** The progress rule on that frame: -5 and 120 are reported, 0 and 100
    are not. *)
Example progress_range_defects :
  _check_progress_range frame_defects
  = Ok [ mkAlert (py "error") (py "Avancement invalide (-5%): Fouilles")
           (Some 0%nat);
         mkAlert (py "error") (py "Avancement invalide (120%): Longrines")
           (Some 2%nat) ].
Proof. vm_compute. reflexivity. Qed.

Lemma date_order_fires_iff_witness :
  _check_date_order frame_defects
  = Ok (concat (date_order_finding <$>
                  filter (λ ir : nat * Series, get ir.2 "level" = tache)
                    (iterrows frame_defects))) ∧
  ∀ a, a ∈ concat (date_order_finding <$>
                     filter (λ ir : nat * Series, get ir.2 "level" = tache)
                       (iterrows frame_defects))
       ↔ ∃ i r s e, rows frame_defects !! i = Some r ∧
                    r !! "level" = Some tache ∧
                    r !! "start_date" = Some (Timestamp s) ∧
                    r !! "end_date" = Some (Timestamp e) ∧ e ≤ s ∧
                    a = mkAlert (py "error")
                          (py "Date fin avant date début: " ++ name_of r)
                          (Some i).
Proof.
  apply (date_order_fires_iff frame_defects).
  - repeat apply Forall_cons_2; try apply Forall_nil_2; cbv beta;
      apply (bool_decide_unpack _); vm_compute; exact I.
  - repeat apply Forall_cons_2; try apply Forall_nil_2; intros _;
      split; vm_compute; reflexivity.
Defined.

(** The date-order rule on that frame: the task that ends when it
    starts is reported like the one that ends before it starts. *)
Example date_order_defects :
  _check_date_order frame_defects
  = Ok [ mkAlert (py "error") (py "Date fin avant date début: Semelles")
           (Some 1%nat);
         mkAlert (py "error") (py "Date fin avant date début: Longrines")
           (Some 2%nat) ].
Proof. vm_compute. reflexivity. Qed.
